(** * pycard: a shallow embedding of [src/pycard/card.py]

    The module defines two classes, [Card] and [ExpDate].  Every method of
    the two classes is a property that reads attributes of [self] by name;
    Python resolves those names when the property runs, and a name bound
    neither on the instance nor in the class raises [AttributeError].  The
    embedding keeps that mechanism: attribute access is a lookup by name
    that returns a dynamically typed value or raises.

    The source is Python 2 ([dict.iteritems], [u'...'] literals): a [str] is
    a byte string, and [\d] matches the ten ASCII digits only.

    The names that every instance inherits from [object] are left out;
    none of the methods reads them. *)

From Stdlib Require Import ZArith List String Ascii Bool Lia Permutation.
From Stdlib Require Import DecimalString.
Import ListNotations.

Open Scope string_scope.
Open Scope Z_scope.

(** ** Exceptions and results *)

Inductive exn : Type :=
| AttributeError (cls attr : string)
| TypeError
| ValueError
| IndexError
| OverflowError
| IllegalMonthError (month : Z)
| RecursionError.

Inductive result (A : Type) : Type :=
| Ok (a : A)
| Raise (e : exn).

Arguments Ok {A} a.
Arguments Raise {A} e.

Definition bind {A B : Type} (m : result A) (k : A -> result B) : result B :=
  match m with
  | Ok a => k a
  | Raise e => Raise e
  end.

Notation "x <- m ;; k" := (bind m (fun x => k))
  (at level 61, m at next level, right associativity).
Notation "' p <- m ;; k" := (bind m (fun x => match x with p => k end))
  (at level 61, p pattern, m at next level, right associativity).

(** A [for] loop whose body may raise: the state is threaded through the
    items from left to right, and the first exception ends the loop. *)
Fixpoint for_each {A S : Type} (items : list A) (body : S -> A -> result S)
    (st : S) : result S :=
  match items with
  | [] => Ok st
  | x :: rest => st' <- body st x ;; for_each rest body st'
  end.

(** ** Python strings and integers *)

Definition chars (s : string) : list ascii := list_ascii_of_string s.

Definition is_digit (c : ascii) : bool :=
  (Nat.leb 48 (nat_of_ascii c) && Nat.leb (nat_of_ascii c) 57)%bool.

Definition digits_only (s : string) : Prop :=
  forallb is_digit (chars s) = true.

(** [len(s)] *)
Definition py_len (s : string) : Z := Z.of_nat (String.length s).

(** [s[i]]: a negative index counts from the end; out of range raises. *)
Definition py_index (s : string) (i : Z) : result ascii :=
  let j := if i <? 0 then i + py_len s else i in
  if j <? 0 then Raise IndexError
  else match String.get (Z.to_nat j) s with
       | Some c => Ok c
       | None => Raise IndexError
       end.

(** [s[lo:hi]]: bounds are clamped to the string, never an error. *)
Definition slice_bound (len i : Z) : Z :=
  if i <? 0 then Z.max 0 (i + len) else Z.min i len.

Definition py_slice (s : string) (lo hi : Z) : string :=
  let a := slice_bound (py_len s) lo in
  let b := slice_bound (py_len s) hi in
  substring (Z.to_nat a) (Z.to_nat (b - a)) s.

(** [int(c)] for a one-character string. *)
Definition int_of_char (c : ascii) : result Z :=
  if is_digit c then Ok (Z.of_nat (nat_of_ascii c) - 48) else Raise ValueError.

(** [str(n)] for an integer. *)
Definition str_of_int (n : Z) : string :=
  NilZero.string_of_int (Z.to_int n).

(** [range(start, stop, -1)] *)
Definition range_down (start stop : Z) : list Z :=
  map (fun k => start - Z.of_nat k) (seq 0 (Z.to_nat (start - stop))).

(** Left-padding with zeros, as [%02d] does. *)
Definition zero_pad (width : nat) (s : string) : string :=
  string_of_list_ascii (repeat "0"%char (width - String.length s)) ++ s.

(** ** Regular expressions

    The fragment of [re] that the module uses, with a backtracking matcher
    in continuation-passing style.  [pos] is the offset of the remaining
    input in the subject string. *)

Inductive regex : Type :=
| Lit (c : ascii)
| Digit
| NonDigit
| OneOf (cs : list ascii)
| Between (lo hi : ascii)
| Cat (r1 r2 : regex)
| Alt (r1 r2 : regex)
| Rep (n : nat) (r : regex)
| Opt (r : regex)
| Bol
| Eol.

Definition newline : ascii := ascii_of_nat 10.

Definition step_char (p : ascii -> bool) (pos : nat) (s : list ascii)
    (k : nat -> list ascii -> bool) : bool :=
  match s with
  | [] => false
  | a :: t => if p a then k (S pos) t else false
  end.

Fixpoint re_run (r : regex) (pos : nat) (s : list ascii)
    (k : nat -> list ascii -> bool) {struct r} : bool :=
  match r with
  | Lit c => step_char (Ascii.eqb c) pos s k
  | Digit => step_char is_digit pos s k
  | NonDigit => step_char (fun a => negb (is_digit a)) pos s k
  | OneOf cs => step_char (fun a => existsb (Ascii.eqb a) cs) pos s k
  | Between lo hi =>
      step_char (fun a => (Nat.leb (nat_of_ascii lo) (nat_of_ascii a)
                           && Nat.leb (nat_of_ascii a) (nat_of_ascii hi))%bool)
                pos s k
  | Cat r1 r2 => re_run r1 pos s (fun p t => re_run r2 p t k)
  | Alt r1 r2 => (re_run r1 pos s k || re_run r2 pos s k)%bool
  | Rep n r1 =>
      (fix rep (n : nat) (pos : nat) (s : list ascii) : bool :=
         match n with
         | O => k pos s
         | S m => re_run r1 pos s (fun p t => rep m p t)
         end) n pos s
  | Opt r1 => (re_run r1 pos s k || k pos s)%bool
  | Bol => if Nat.eqb pos 0 then k pos s else false
  | Eol =>
      match s with
      | [] => k pos s
      | [a] => if Ascii.eqb a newline then k pos s else false
      | _ => false
      end
  end.

(** [regexp.match(s)] as a truth value: some match starts at offset 0. *)
Definition re_match (r : regex) (s : string) : bool :=
  re_run r 0 (chars s) (fun _ _ => true).

Fixpoint cat_all (rs : list regex) : regex :=
  match rs with
  | [] => Rep 0 Digit
  | [r] => r
  | r :: rest => Cat r (cat_all rest)
  end.

Definition lits (s : string) : regex := cat_all (map Lit (chars s)).

(** [regexp.sub(repl, s)] for a pattern that is a single character class:
    every character of the class is a match and is replaced by [repl]. *)
Fixpoint sub_class (p : ascii -> bool) (repl : string) (s : string) : string :=
  match s with
  | EmptyString => EmptyString
  | String a t =>
      if p a then repl ++ sub_class p repl t
      else String a (sub_class p repl t)
  end.

(** ** The standard library's calendar and datetime

    [calendar.monthrange] and the parts of [datetime] that the module
    calls, following CPython's [Lib/calendar.py] and [Lib/datetime.py].
    Python's [//] and [%] round towards minus infinity, as [Z.div] and
    [Z.modulo] do for a positive divisor. *)

Definition MINYEAR : Z := 1.
Definition MAXYEAR : Z := 9999.
Definition MAXORDINAL : Z := 3652059.

Definition DAYS_IN_MONTH : list Z :=
  [-1; 31; 28; 31; 30; 31; 30; 31; 31; 30; 31; 30; 31].

Definition DAYS_BEFORE_MONTH : list Z :=
  [-1; 0; 31; 59; 90; 120; 151; 181; 212; 243; 273; 304; 334].

Definition table (l : list Z) (i : Z) : Z := nth (Z.to_nat i) l 0.

Definition is_leap (year : Z) : bool :=
  ((year mod 4 =? 0) && (negb (year mod 100 =? 0) || (year mod 400 =? 0)))%bool.

Definition days_before_year (year : Z) : Z :=
  let y := year - 1 in y * 365 + y / 4 - y / 100 + y / 400.

Definition days_in_month (year month : Z) : Z :=
  if ((month =? 2) && is_leap year)%bool then 29 else table DAYS_IN_MONTH month.

Definition days_before_month (year month : Z) : Z :=
  table DAYS_BEFORE_MONTH month
  + (if ((2 <? month) && is_leap year)%bool then 1 else 0).

Definition ymd2ord (year month day : Z) : Z :=
  days_before_year year + days_before_month year month + day.

Definition DI400Y : Z := 146097.
Definition DI100Y : Z := 36524.
Definition DI4Y : Z := 1461.

Definition ord2ymd (ordinal : Z) : Z * Z * Z :=
  let n := ordinal - 1 in
  let n400 := n / DI400Y in
  let n := n mod DI400Y in
  let year := n400 * 400 + 1 in
  let n100 := n / DI100Y in
  let n := n mod DI100Y in
  let n4 := n / DI4Y in
  let n := n mod DI4Y in
  let n1 := n / 365 in
  let n := n mod 365 in
  let year := year + n100 * 100 + n4 * 4 + n1 in
  if ((n1 =? 4) || (n100 =? 4))%bool then (year - 1, 12, 31)
  else
    let leapyear := ((n1 =? 3) && (negb (n4 =? 24) || (n100 =? 3)))%bool in
    let month := Z.shiftr (n + 50) 5 in
    let preceding :=
      table DAYS_BEFORE_MONTH month
      + (if ((2 <? month) && leapyear)%bool then 1 else 0) in
    if n <? preceding then
      let month := month - 1 in
      let preceding :=
        preceding
        - (table DAYS_IN_MONTH month
           + (if ((month =? 2) && leapyear)%bool then 1 else 0)) in
      (year, month, n - preceding + 1)
    else (year, month, n - preceding + 1).

Record datetime : Type := mk_datetime {
  dt_year : Z;
  dt_month : Z;
  dt_day : Z;
  dt_hour : Z;
  dt_minute : Z;
  dt_second : Z;
  dt_microsecond : Z
}.

Definition between (lo x hi : Z) : bool := ((lo <=? x) && (x <=? hi))%bool.

Definition check_date_fields (year month day : Z) : bool :=
  (between MINYEAR year MAXYEAR && between 1 month 12
   && between 1 day (days_in_month year month))%bool.

Definition check_time_fields (hour minute second microsecond : Z) : bool :=
  (between 0 hour 23 && between 0 minute 59 && between 0 second 59
   && between 0 microsecond 999999)%bool.

(** [datetime.datetime(year, month, day, hour, minute, second, microsecond)] *)
Definition datetime_new (year month day hour minute second microsecond : Z)
    : result datetime :=
  if check_date_fields year month day then
    if check_time_fields hour minute second microsecond then
      Ok (mk_datetime year month day hour minute second microsecond)
    else Raise ValueError
  else Raise ValueError.

(** The values that the constructor can build. *)
Definition valid_datetime (d : datetime) : Prop :=
  check_date_fields (dt_year d) (dt_month d) (dt_day d) = true /\
  check_time_fields (dt_hour d) (dt_minute d) (dt_second d)
                    (dt_microsecond d) = true.

Definition toordinal (d : datetime) : Z :=
  ymd2ord (dt_year d) (dt_month d) (dt_day d).

Record timedelta : Type := mk_timedelta {
  td_days : Z;
  td_seconds : Z;
  td_microseconds : Z
}.

(** [timedelta(days, seconds, microseconds)], normalised so that
    [0 <= seconds < 86400] and [0 <= microseconds < 1000000]. *)
Definition timedelta_new (days seconds microseconds : Z) : timedelta :=
  let s := seconds + microseconds / 1000000 in
  mk_timedelta (days + s / 86400) (s mod 86400) (microseconds mod 1000000).

Definition timedelta_hours (hours : Z) : timedelta :=
  timedelta_new 0 (hours * 3600) 0.

Definition timedelta_neg (t : timedelta) : timedelta :=
  timedelta_new (- td_days t) (- td_seconds t) (- td_microseconds t).

Definition timedelta_add (a b : timedelta) : timedelta :=
  timedelta_new (td_days a + td_days b) (td_seconds a + td_seconds b)
                (td_microseconds a + td_microseconds b).

(** [datetime + timedelta] *)
Definition datetime_add (d : datetime) (other : timedelta) : result datetime :=
  let delta :=
    timedelta_add
      (timedelta_new (toordinal d)
         (dt_hour d * 3600 + dt_minute d * 60 + dt_second d)
         (dt_microsecond d))
      other in
  let hour := td_seconds delta / 3600 in
  let rem := td_seconds delta mod 3600 in
  let minute := rem / 60 in
  let second := rem mod 60 in
  if ((0 <? td_days delta) && (td_days delta <=? MAXORDINAL))%bool then
    let '(y, m, dd) := ord2ymd (td_days delta) in
    Ok (mk_datetime y m dd hour minute second (td_microseconds delta))
  else Raise OverflowError.

(** [datetime - timedelta] *)
Definition datetime_sub (d : datetime) (other : timedelta) : result datetime :=
  datetime_add d (timedelta_neg other).

(** Comparison of two datetimes: lexicographic on the seven fields. *)
Fixpoint lex_compare (a b : list Z) : comparison :=
  match a, b with
  | x :: a', y :: b' =>
      match x ?= y with
      | Eq => lex_compare a' b'
      | c => c
      end
  | [], [] => Eq
  | [], _ :: _ => Lt
  | _ :: _, [] => Gt
  end.

Definition datetime_fields (d : datetime) : list Z :=
  [dt_year d; dt_month d; dt_day d; dt_hour d; dt_minute d; dt_second d;
   dt_microsecond d].

Definition datetime_cmp (a b : datetime) : comparison :=
  lex_compare (datetime_fields a) (datetime_fields b).

Definition datetime_gt (a b : datetime) : bool :=
  match datetime_cmp a b with
  | Gt => true
  | _ => false
  end.

(** [d.strftime(fmt)] for the directives [%m] and [%Y]; Python 2 refuses
    years before 1900. *)
Fixpoint format_fields (d : datetime) (fmt : list ascii) : string :=
  match fmt with
  | [] => EmptyString
  | "%"%char :: "m"%char :: rest =>
      zero_pad 2 (str_of_int (dt_month d)) ++ format_fields d rest
  | "%"%char :: "Y"%char :: rest =>
      str_of_int (dt_year d) ++ format_fields d rest
  | c :: rest => String c (format_fields d rest)
  end.

Definition strftime (d : datetime) (fmt : string) : result string :=
  if dt_year d <? 1900 then Raise ValueError
  else Ok (format_fields d (chars fmt)).

(** [calendar.isleap], [calendar.mdays], [calendar.weekday] and
    [calendar.monthrange] *)
Definition isleap (year : Z) : bool :=
  ((year mod 4 =? 0) && (negb (year mod 100 =? 0) || (year mod 400 =? 0)))%bool.

Definition mdays : list Z := [0; 31; 28; 31; 30; 31; 30; 31; 31; 30; 31; 30; 31].

Definition February : Z := 2.

Definition weekday (year month day : Z) : result Z :=
  if check_date_fields year month day
  then Ok ((ymd2ord year month day + 6) mod 7)
  else Raise ValueError.

Definition monthrange (year month : Z) : result (Z * Z) :=
  if negb (between 1 month 12) then Raise (IllegalMonthError month)
  else
    day1 <- weekday year month 1 ;;
    let ndays :=
      table mdays month
      + (if ((month =? February) && isleap year)%bool then 1 else 0) in
    Ok (day1, ndays).

(** ** Objects and dynamically typed values *)

(** An [ExpDate] instance: [__init__] binds [expired_after] only. *)
Record ExpDate_obj : Type := mk_ExpDate {
  expired_after : datetime
}.

(** A [Card] instance: [__init__] binds [number], [exp_date] and [cvv2]. *)
Record Card_obj : Type := mk_Card {
  number : string;
  exp_date : ExpDate_obj;
  cvv2 : string
}.

(** The values that attribute access can yield.  A dict is held as its
    items in the order in which [iteritems] yields them. *)
Inductive pyval : Type :=
| VBool (b : bool)
| VInt (n : Z)
| VStr (s : string)
| VTuple (items : list string)
| VPattern (r : regex)
| VDict (items : list (string * regex))
| VDatetime (d : datetime)
| VExpDate (e : ExpDate_obj).

(** What the interpreter and the clock contribute to a run: the reading
    of [datetime.datetime.utcnow()] and the order in which the dict
    [Card.BRANDS] is iterated (Python 2 fixes no order for a dict). *)
Record env : Type := mk_env {
  utcnow : datetime;
  BRANDS_items : list (string * regex)
}.

(** The operators below are given on the operand types that the two
    classes produce; the instance attributes are typed by the records, so
    the remaining branches are not reachable from a constructed object. *)

Definition truthy (v : pyval) : bool :=
  match v with
  | VBool b => b
  | VInt n => negb (n =? 0)
  | VStr s => negb (String.eqb s "")
  | VTuple l => match l with [] => false | _ => true end
  | VDict l => match l with [] => false | _ => true end
  | _ => true
  end.

(** [a == b] *)
Definition py_eq (a b : pyval) : bool :=
  match a, b with
  | VStr s, VStr t => String.eqb s t
  | VBool x, VBool y => Bool.eqb x y
  | VInt x, VInt y => x =? y
  | VBool x, VInt y => (if x then 1 else 0) =? y
  | VInt x, VBool y => x =? (if y then 1 else 0)
  | _, _ => false
  end.

(** [a > b] on datetimes *)
Definition py_gt (a b : pyval) : result pyval :=
  match a, b with
  | VDatetime x, VDatetime y => Ok (VBool (datetime_gt x y))
  | _, _ => Raise TypeError
  end.

Definition as_str (v : pyval) : result string :=
  match v with
  | VStr s => Ok s
  | _ => Raise TypeError
  end.

(** [x in t] for a tuple of strings *)
Definition py_in (x t : pyval) : result pyval :=
  match t with
  | VTuple items => Ok (VBool (existsb (py_eq x) (map VStr items)))
  | _ => Raise TypeError
  end.

(** [d.iteritems()] *)
Definition iteritems (d : pyval) : result (list (string * regex)) :=
  match d with
  | VDict items => Ok items
  | _ => Raise (AttributeError "object" "iteritems")
  end.

(** [v.strftime(fmt)] *)
Definition py_strftime (v : pyval) (fmt : string) : result pyval :=
  match v with
  | VDatetime d => s <- strftime d fmt ;; Ok (VStr s)
  | _ => Raise (AttributeError "object" "strftime")
  end.

(** The text that [str.format] puts in place of a field: [str(v)]. *)
Definition py_str (v : pyval) : result string :=
  match v with
  | VStr s => Ok s
  | VBool b => Ok (if b then "True" else "False")
  | VInt n => Ok (str_of_int n)
  | _ => Raise TypeError
  end.

(** ** class ExpDate *)

Module ExpDate.

(** [ExpDate.__init__(self, month, year)] *)
Definition init (month year : Z) : result ExpDate_obj :=
  '(weekday, day_count) <- monthrange year month ;;
  d <- datetime_new year month day_count 23 59 59 999999 ;;
  Ok (mk_ExpDate d).

Section Properties.
Variable E : env.
(** [self.<name>] *)
Variable self_ : string -> result pyval.

Definition is_expired : result pyval :=
  let utcnow := utcnow E in
  samoa_now <- datetime_sub utcnow (timedelta_hours 11) ;;
  expired_after <- self_ "expired_after" ;;
  py_gt (VDatetime samoa_now) expired_after.

Definition mmyyyy : result pyval :=
  d <- self_ "exp_date" ;; py_strftime d "%m/%Y".

Definition mm : result pyval :=
  d <- self_ "exp_date" ;; py_strftime d "%m".

Definition yyyy : result pyval :=
  d <- self_ "exp_date" ;; py_strftime d "%Y".

(** [ExpDate.__repr__(self)] *)
Definition __repr__ : result string :=
  d <- self_ "expired_after" ;;
  t <- py_strftime d "%m/%Y" ;;
  text <- py_str t ;;
  Ok ("<ExpDate expired_after=" ++ text ++ ">").
End Properties.

(** Attribute lookup on an [ExpDate] instance: the properties of the
    class, then the instance attribute, else [AttributeError].  A
    property runs its getter, which may look further names up on
    [self]; [depth] bounds the nesting of such calls, as the
    interpreter's recursion limit does. *)
Fixpoint getattr (depth : nat) (E : env) (self : ExpDate_obj) (name : string)
    : result pyval :=
  let call (getter : (string -> result pyval) -> result pyval) :=
    match depth with
    | O => Raise RecursionError
    | S depth' => getter (getattr depth' E self)
    end in
  if String.eqb name "is_expired" then call (is_expired E)
  else if String.eqb name "mmyyyy" then call mmyyyy
  else if String.eqb name "mm" then call mm
  else if String.eqb name "yyyy" then call yyyy
  else if String.eqb name "expired_after" then Ok (VDatetime (expired_after self))
  else Raise (AttributeError "ExpDate" name).

(** [repr(self)]: the call of [__repr__] is one more level of nesting. *)
Definition repr (depth : nat) (E : env) (self : ExpDate_obj) : result string :=
  match depth with
  | O => Raise RecursionError
  | S depth' => __repr__ (getattr depth' E self)
  end.

End ExpDate.

(** [v.is_expired] for the value found in [self.exp_date] *)
Definition py_is_expired (depth : nat) (E : env) (v : pyval) : result pyval :=
  match v with
  | VExpDate e => ExpDate.getattr depth E e "is_expired"
  | _ => Raise (AttributeError "object" "is_expired")
  end.

(** [v.mmyyyy] for the value found in [self.exp_date] *)
Definition py_mmyyyy (depth : nat) (E : env) (v : pyval) : result pyval :=
  match v with
  | VExpDate e => ExpDate.getattr depth E e "mmyyyy"
  | _ => Raise (AttributeError "object" "mmyyyy")
  end.

(** ** class Card *)

Module Card.

Definition non_digit_regexp : regex := NonDigit.

Definition BRAND_VISA : string := "visa".
Definition BRAND_MASTERCARD : string := "mastercard".
Definition BRAND_AMEX : string := "amex".
Definition BRAND_DISCOVER : string := "discover".
Definition BRAND_UNKNOWN : string := "unknown".

(** [^4\d{12}(\d{3})?$] *)
Definition visa_re : regex :=
  cat_all [Bol; Lit "4"; Rep 12 Digit; Opt (Rep 3 Digit); Eol].

(** [^(5[1-5]\d{4}|677189)\d{10}$] *)
Definition mastercard_re : regex :=
  cat_all [Bol;
           Alt (cat_all [Lit "5"; Between "1" "5"; Rep 4 Digit]) (lits "677189");
           Rep 10 Digit; Eol].

(** [^3[47]\d{13}$] *)
Definition amex_re : regex :=
  cat_all [Bol; Lit "3"; OneOf ["4"%char; "7"%char]; Rep 13 Digit; Eol].

(** [^(6011|65\d{2})\d{12}$] *)
Definition discover_re : regex :=
  cat_all [Bol;
           Alt (lits "6011") (cat_all [Lit "6"; Lit "5"; Rep 2 Digit]);
           Rep 12 Digit; Eol].

(** The items of the dict literal, in the order of the source text. *)
Definition BRANDS : list (string * regex) :=
  [ (BRAND_VISA, visa_re);
    (BRAND_MASTERCARD, mastercard_re);
    (BRAND_AMEX, amex_re);
    (BRAND_DISCOVER, discover_re) ].

Definition TESTS : list string :=
  [ "4444333322221111";
    "378282246310005";
    "371449635398431";
    "378734493671000";
    "30569309025904";
    "38520000023237";
    "6011111111111117";
    "6011000990139424";
    "555555555554444";
    "5105105105105100";
    "4111111111111111";
    "4012888888881881";
    "4222222222222" ].

(** [Card.__init__(self, number, month, year, cvv2)] *)
Definition init (number : string) (month year : Z) (cvv2 : string)
    : result Card_obj :=
  let number := sub_class (fun c => negb (is_digit c)) "" number in
  exp_date <- ExpDate.init month year ;;
  Ok (mk_Card number exp_date cvv2).

Section Properties.
Variable depth : nat.
Variable E : env.
(** [self.<name>] *)
Variable self_ : string -> result pyval.

Definition mask : result pyval :=
  card_type <- self_ "card_type" ;;
  amex <- self_ "BRAND_AMEX" ;;
  if py_eq card_type amex then
    n <- self_ "number" ;;
    s <- as_str n ;;
    Ok (VStr ("XXXX-XXXXXX-X" ++ py_slice s 11 15))
  else
    n <- self_ "number" ;;
    s <- as_str n ;;
    Ok (VStr ("XXXX-XXXX-XXXX-" ++ py_slice s 12 16)).

(** The [for] loop of [brand]: the first item whose pattern matches
    ends the loop with its key. *)
Fixpoint brand_loop (items : list (string * regex)) : result (option pyval) :=
  match items with
  | [] => Ok None
  | (brand, regexp) :: rest =>
      n <- self_ "number" ;;
      s <- as_str n ;;
      if re_match regexp s then Ok (Some (VStr brand))
      else brand_loop rest
  end.

Definition brand : result pyval :=
  d <- self_ "BRANDS" ;;
  items <- iteritems d ;;
  found <- brand_loop items ;;
  match found with
  | Some b => Ok b
  | None => self_ "BRAND_UNKNOWN"
  end.

Definition is_test : result pyval :=
  n <- self_ "number" ;;
  t <- self_ "TESTS" ;;
  py_in n t.

Definition is_expired : result pyval :=
  e <- self_ "exp_date" ;;
  py_is_expired depth E e.

(** [not a and b]: [b] is evaluated only when [not a] is true. *)
Definition is_valid : result pyval :=
  a <- self_ "is_expired" ;;
  if negb (truthy a) then self_ "is_mod10"
  else Ok (VBool false).

(** The body of the outer loop of [is_mod10_valid], on the state
    [(dub, tot)]. *)
Definition mod10_step (st : Z * Z) (i : Z) : result (Z * Z) :=
  let '(dub, tot) := st in
  n <- self_ "number" ;;
  s <- as_str n ;;
  c <- py_index s i ;;
  d <- int_of_char c ;;
  tot <- for_each (chars (str_of_int ((dub + 1) * d)))
           (fun tot c => v <- int_of_char c ;; Ok (tot + v)) tot ;;
  Ok ((dub + 1) mod 2, tot).

Definition is_mod10_valid : result pyval :=
  n <- self_ "number" ;;
  s <- as_str n ;;
  '(dub, tot) <- for_each (range_down (py_len s - 1) (-1)) mod10_step (0, 0) ;;
  Ok (VBool (tot mod 10 =? 0)).

(** [Card.__repr__(self)]: the two arguments of [format] are evaluated
    from left to right, then the text is built. *)
Definition __repr__ : result string :=
  n <- self_ "mask" ;;
  x <- self_ "exp_date" ;;
  e <- py_mmyyyy depth E x ;;
  n <- py_str n ;;
  e <- py_str e ;;
  Ok ("<Card number=" ++ n ++ ", exp_date=" ++ e ++ ">").
End Properties.

(** Attribute lookup on a [Card] instance: the properties of the class,
    then the instance attributes, then the other names of the class
    body, else [AttributeError]. *)
Fixpoint getattr (depth : nat) (E : env) (self : Card_obj) (name : string)
    : result pyval :=
  let call (getter : nat -> (string -> result pyval) -> result pyval) :=
    match depth with
    | O => Raise RecursionError
    | S depth' => getter depth' (getattr depth' E self)
    end in
  if String.eqb name "mask" then call (fun _ => mask)
  else if String.eqb name "brand" then call (fun _ => brand)
  else if String.eqb name "is_test" then call (fun _ => is_test)
  else if String.eqb name "is_expired" then call (fun d => is_expired d E)
  else if String.eqb name "is_valid" then call (fun _ => is_valid)
  else if String.eqb name "is_mod10_valid" then call (fun _ => is_mod10_valid)
  else if String.eqb name "number" then Ok (VStr (number self))
  else if String.eqb name "exp_date" then Ok (VExpDate (exp_date self))
  else if String.eqb name "cvv2" then Ok (VStr (cvv2 self))
  else if String.eqb name "non_digit_regexp" then Ok (VPattern non_digit_regexp)
  else if String.eqb name "BRAND_VISA" then Ok (VStr BRAND_VISA)
  else if String.eqb name "BRAND_MASTERCARD" then Ok (VStr BRAND_MASTERCARD)
  else if String.eqb name "BRAND_AMEX" then Ok (VStr BRAND_AMEX)
  else if String.eqb name "BRAND_DISCOVER" then Ok (VStr BRAND_DISCOVER)
  else if String.eqb name "BRAND_UNKNOWN" then Ok (VStr BRAND_UNKNOWN)
  else if String.eqb name "BRANDS" then Ok (VDict (BRANDS_items E))
  else if String.eqb name "TESTS" then Ok (VTuple TESTS)
  else Raise (AttributeError "Card" name).

(** [repr(self)] *)
Definition repr (depth : nat) (E : env) (self : Card_obj) : result string :=
  match depth with
  | O => Raise RecursionError
  | S depth' => __repr__ depth' E (getattr depth' E self)
  end.

End Card.

(** ** Reference notions

    Definitions that restate what the documentation promises, for the
    comparison with the code above. *)

(** The length of a month as the Gregorian calendar states it: the
    reference that the tables of [calendar] and [datetime] are compared
    with. *)
Definition leap_year (year : Z) : bool :=
  if year mod 400 =? 0 then true
  else if year mod 100 =? 0 then false
  else year mod 4 =? 0.

Definition month_length (year month : Z) : Z :=
  match month with
  | 1 | 3 | 5 | 7 | 8 | 10 | 12 => 31
  | 4 | 6 | 9 | 11 => 30
  | 2 => if leap_year year then 29 else 28
  | _ => 0
  end.

(** Microseconds on a linear time axis: the instant that a datetime
    denotes. *)
Definition timestamp (d : datetime) : Z :=
  (((toordinal d * 24 + dt_hour d) * 60 + dt_minute d) * 60 + dt_second d)
  * 1000000 + dt_microsecond d.

Definition eleven_hours : Z := 11 * 3600 * 1000000.

(** The earliest reading of the clock from which eleven hours can be
    taken off: 0001-01-01 11:00:00. *)
Definition earliest_reading : datetime := mk_datetime 1 1 1 11 0 0 0.

(** The first instant of the month that follows [month] of [year]. *)
Definition next_month_start (year month : Z) : Z :=
  if month =? 12 then timestamp (mk_datetime (year + 1) 1 1 0 0 0 0)
  else timestamp (mk_datetime year (month + 1) 1 0 0 0 0).


(** The Luhn sum as the documentation words it: counting positions from
    the rightmost digit, from zero, every digit at an odd position is
    doubled and replaced by the sum of the decimal digits of the product;
    the digits at even positions are added as they are. *)
Definition digit_value (c : ascii) : Z := Z.of_nat (nat_of_ascii c) - 48.

(** The sum of the decimal digits of a value below 100. *)
Definition digit_sum (n : Z) : Z := n / 10 + n mod 10.

Definition luhn_term (position : nat) (digit : Z) : Z :=
  if Nat.odd position then digit_sum (2 * digit) else digit.

Fixpoint luhn_terms (position : nat) (from_right : list Z) : Z :=
  match from_right with
  | [] => 0
  | digit :: rest => luhn_term position digit + luhn_terms (S position) rest
  end.

Definition luhn_sum (s : string) : Z :=
  luhn_terms 0 (rev (map digit_value (chars s))).

(** The body of the loop of [is_mod10_valid] on the character that the
    index selects. *)
Definition mod10_char_step (st : Z * Z) (c : ascii) : result (Z * Z) :=
  let '(dub, tot) := st in
  d <- int_of_char c ;;
  tot <- for_each (chars (str_of_int ((dub + 1) * d)))
           (fun tot c => v <- int_of_char c ;; Ok (tot + v)) tot ;;
  Ok ((dub + 1) mod 2, tot).

(** The brand of a number as the documentation words it: the brand whose
    pattern the number matches, unknown when it matches none. *)
Definition brand_of (s : string) : string :=
  if re_match Card.visa_re s then Card.BRAND_VISA
  else if re_match Card.mastercard_re s then Card.BRAND_MASTERCARD
  else if re_match Card.amex_re s then Card.BRAND_AMEX
  else if re_match Card.discover_re s then Card.BRAND_DISCOVER
  else Card.BRAND_UNKNOWN.

(** The items of a dict whose pattern matches a number. *)
Definition matching (s : string) (items : list (string * regex))
    : list (string * regex) :=
  filter (fun item => re_match (snd item) s) items.

(** A clock reading, a card and an expiration date for the examples. *)
Definition sample_env : env :=
  mk_env (mk_datetime 2024 3 1 10 59 59 999999)
    [ (Card.BRAND_DISCOVER, Card.discover_re);
      (Card.BRAND_AMEX, Card.amex_re);
      (Card.BRAND_VISA, Card.visa_re);
      (Card.BRAND_MASTERCARD, Card.mastercard_re) ].

Definition sample_exp_date : ExpDate_obj :=
  mk_ExpDate (mk_datetime 2024 2 29 23 59 59 999999).

Definition sample_card (number : string) : Card_obj :=
  mk_Card number sample_exp_date "123".

(** The digits of a raw number, in their order. *)
Definition digits_of (raw : string) : string :=
  string_of_list_ascii (filter is_digit (chars raw)).

(** Decimal text of fixed width, as [%m] and [%Y] print a month and a
    four-digit year. *)
Definition digit_char (d : Z) : ascii := ascii_of_nat (48 + Z.to_nat d).

Definition two_digits (n : Z) : string :=
  String (digit_char (n / 10)) (String (digit_char (n mod 10)) "").

Definition four_digits (n : Z) : string :=
  String (digit_char (n / 1000))
    (String (digit_char (n / 100 mod 10)) (two_digits (n mod 100))).

(** The digit at an index of a number, [-1] where there is none. *)
Definition digit_at (i : nat) (s : string) : Z :=
  match String.get i s with
  | Some c => digit_value c
  | None => -1
  end.

(** A number starts with the given text. *)
Fixpoint starts_with (p s : string) : bool :=
  match p, s with
  | EmptyString, _ => true
  | String a p', String b s' => (Ascii.eqb a b && starts_with p' s')%bool
  | String _ _, EmptyString => false
  end.

(** * Properties *)

(** ** Attribute lookup, name by name *)

Section Lookup.
Variables (d : nat) (E : env).

Lemma ExpDate_expired_after (e : ExpDate_obj) :
  ExpDate.getattr d E e "expired_after" = Ok (VDatetime (expired_after e)).
Proof. destruct d; reflexivity. Qed.

Lemma ExpDate_exp_date (e : ExpDate_obj) :
  ExpDate.getattr d E e "exp_date" = Raise (AttributeError "ExpDate" "exp_date").
Proof. destruct d; reflexivity. Qed.

Lemma ExpDate_is_expired (e : ExpDate_obj) :
  ExpDate.getattr (S d) E e "is_expired"
  = ExpDate.is_expired E (ExpDate.getattr d E e).
Proof. reflexivity. Qed.

Variable c : Card_obj.

Lemma Card_number : Card.getattr d E c "number" = Ok (VStr (number c)).
Proof. destruct d; reflexivity. Qed.

Lemma Card_exp_date : Card.getattr d E c "exp_date" = Ok (VExpDate (exp_date c)).
Proof. destruct d; reflexivity. Qed.

Lemma Card_TESTS : Card.getattr d E c "TESTS" = Ok (VTuple Card.TESTS).
Proof. destruct d; reflexivity. Qed.

Lemma Card_BRANDS : Card.getattr d E c "BRANDS" = Ok (VDict (BRANDS_items E)).
Proof. destruct d; reflexivity. Qed.

Lemma Card_BRAND_UNKNOWN :
  Card.getattr d E c "BRAND_UNKNOWN" = Ok (VStr Card.BRAND_UNKNOWN).
Proof. destruct d; reflexivity. Qed.

Lemma Card_card_type :
  Card.getattr d E c "card_type" = Raise (AttributeError "Card" "card_type").
Proof. destruct d; reflexivity. Qed.

Lemma Card_is_mod10 :
  Card.getattr d E c "is_mod10" = Raise (AttributeError "Card" "is_mod10").
Proof. destruct d; reflexivity. Qed.

Lemma Card_mask : Card.getattr (S d) E c "mask" = Card.mask (Card.getattr d E c).
Proof. reflexivity. Qed.

Lemma Card_brand : Card.getattr (S d) E c "brand" = Card.brand (Card.getattr d E c).
Proof. reflexivity. Qed.

Lemma Card_is_test :
  Card.getattr (S d) E c "is_test" = Card.is_test (Card.getattr d E c).
Proof. reflexivity. Qed.

Lemma Card_is_expired :
  Card.getattr (S d) E c "is_expired" = Card.is_expired d E (Card.getattr d E c).
Proof. reflexivity. Qed.

Lemma Card_is_valid :
  Card.getattr (S d) E c "is_valid" = Card.is_valid (Card.getattr d E c).
Proof. reflexivity. Qed.

Lemma Card_is_mod10_valid :
  Card.getattr (S d) E c "is_mod10_valid"
  = Card.is_mod10_valid (Card.getattr d E c).
Proof. reflexivity. Qed.
End Lookup.

(** The expiration check of a card is the one of its expiration date. *)
Lemma Card_is_expired_delegates (d : nat) (E : env) (c : Card_obj) :
  Card.getattr (S d) E c "is_expired"
  = ExpDate.getattr d E (exp_date c) "is_expired".
Proof.
  rewrite Card_is_expired. unfold Card.is_expired.
  rewrite Card_exp_date. reflexivity.
Qed.

(** [mask] fails on its first attribute access, whatever the card. *)
Lemma mask_raises (d : nat) (E : env) (c : Card_obj) :
  Card.getattr (S d) E c "mask" = Raise (AttributeError "Card" "card_type").
Proof.
  rewrite Card_mask. unfold Card.mask. rewrite Card_card_type. reflexivity.
Qed.

(** [is_valid] has a value only for an expired card. *)
Lemma is_valid_cases (d : nat) (E : env) (c : Card_obj) :
  Card.getattr (S (S d)) E c "is_valid"
  = match Card.getattr (S d) E c "is_expired" with
    | Ok a =>
        if truthy a then Ok (VBool false)
        else Raise (AttributeError "Card" "is_mod10")
    | Raise e => Raise e
    end.
Proof.
  rewrite Card_is_valid. unfold Card.is_valid.
  destruct (Card.getattr (S d) E c "is_expired") as [a|e]; simpl; [|reflexivity].
  destruct (truthy a); reflexivity.
Qed.

(** ** The calendar *)

Ltac month_cases m :=
  let H := fresh "Hm" in
  assert (H : m = 1 \/ m = 2 \/ m = 3 \/ m = 4 \/ m = 5 \/ m = 6 \/ m = 7 \/
              m = 8 \/ m = 9 \/ m = 10 \/ m = 11 \/ m = 12) by lia;
  repeat (destruct H as [H | H]); subst m.

Ltac tables :=
  repeat match goal with
         | |- context [table ?l ?i] =>
             let v := eval vm_compute in (table l i) in
             change (table l i) with v
         end.

Ltac divmod := Z.div_mod_to_equations; lia.

Lemma between_true (lo x hi : Z) : between lo x hi = true <-> lo <= x <= hi.
Proof. unfold between. rewrite andb_true_iff, !Z.leb_le. tauto. Qed.

Lemma between_false (lo x hi : Z) : between lo x hi = false <-> ~ lo <= x <= hi.
Proof.
  rewrite <- between_true. destruct (between lo x hi); split; congruence.
Qed.

Lemma is_leap_leap_year (year : Z) : is_leap year = leap_year year.
Proof.
  unfold is_leap, leap_year.
  destruct (Z.eqb_spec (year mod 400) 0), (Z.eqb_spec (year mod 100) 0),
    (Z.eqb_spec (year mod 4) 0); simpl; try reflexivity; exfalso; divmod.
Qed.

Lemma days_in_month_length (year month : Z) :
  1 <= month <= 12 -> days_in_month year month = month_length year month.
Proof.
  intros H. unfold days_in_month. rewrite is_leap_leap_year.
  month_cases month; reflexivity.
Qed.

Lemma days_in_month_bounds (year month : Z) :
  1 <= month <= 12 -> 28 <= days_in_month year month <= 31.
Proof.
  intros H. unfold days_in_month.
  month_cases month; destruct (is_leap year); simpl; tables; lia.
Qed.

(** The day count of [calendar.monthrange] is the one that [datetime]
    checks days against. *)
Lemma monthrange_days (year month : Z) :
  1 <= month <= 12 -> MINYEAR <= year <= MAXYEAR ->
  exists day1, monthrange year month = Ok (day1, days_in_month year month).
Proof.
  intros Hm Hy. unfold monthrange, weekday, check_date_fields.
  pose proof (days_in_month_bounds year month Hm) as Hd.
  rewrite (proj2 (between_true 1 month 12) Hm).
  rewrite (proj2 (between_true MINYEAR year MAXYEAR) Hy).
  rewrite (proj2 (between_true 1 1 _)) by lia.
  simpl. eexists. f_equal. f_equal.
  unfold days_in_month, isleap, is_leap, February.
  month_cases month; simpl; try reflexivity.
  destruct (_ && _)%bool; reflexivity.
Qed.

Lemma monthrange_illegal_month (year month : Z) :
  ~ 1 <= month <= 12 -> monthrange year month = Raise (IllegalMonthError month).
Proof.
  intros H. unfold monthrange.
  rewrite (proj2 (between_false 1 month 12) H). reflexivity.
Qed.

Lemma monthrange_year_out_of_range (year month : Z) :
  1 <= month <= 12 -> ~ MINYEAR <= year <= MAXYEAR ->
  monthrange year month = Raise ValueError.
Proof.
  intros Hm Hy. unfold monthrange, weekday, check_date_fields.
  rewrite (proj2 (between_true 1 month 12) Hm).
  rewrite (proj2 (between_false MINYEAR year MAXYEAR) Hy). reflexivity.
Qed.

(** What the constructor of [ExpDate] accepts, and what it then stores. *)
Lemma ExpDate_init_ok (month year : Z) :
  1 <= month <= 12 -> MINYEAR <= year <= MAXYEAR ->
  ExpDate.init month year
  = Ok (mk_ExpDate
          (mk_datetime year month (days_in_month year month) 23 59 59 999999)).
Proof.
  intros Hm Hy. unfold ExpDate.init.
  destruct (monthrange_days year month Hm Hy) as [day1 ->]. simpl.
  unfold datetime_new, check_date_fields.
  pose proof (days_in_month_bounds year month Hm) as Hd.
  rewrite (proj2 (between_true 1 month 12) Hm).
  rewrite (proj2 (between_true MINYEAR year MAXYEAR) Hy).
  rewrite (proj2 (between_true 1 _ _)) by lia.
  reflexivity.
Qed.

Lemma ExpDate_init_accepts (month year : Z) (e : ExpDate_obj) :
  ExpDate.init month year = Ok e ->
  1 <= month <= 12 /\ MINYEAR <= year <= MAXYEAR.
Proof.
  intros H.
  assert (Hm : 1 <= month <= 12 \/ ~ 1 <= month <= 12) by lia.
  destruct Hm as [Hm | Hm].
  - split; [exact Hm|].
    assert (Hy : MINYEAR <= year <= MAXYEAR \/ ~ MINYEAR <= year <= MAXYEAR)
      by lia.
    destruct Hy as [Hy | Hy]; [exact Hy|].
    unfold ExpDate.init in H.
    rewrite (monthrange_year_out_of_range year month Hm Hy) in H. discriminate.
  - unfold ExpDate.init in H.
    rewrite (monthrange_illegal_month year month Hm) in H. discriminate.
Qed.

(** ** Ordinals and the linear time axis *)

Lemma days_before_year_succ (year : Z) :
  days_before_year (year + 1)
  = days_before_year year + 365 + (if is_leap year then 1 else 0).
Proof.
  unfold days_before_year, is_leap. cbv zeta.
  replace (year + 1 - 1) with year by lia.
  destruct (Z.eqb_spec (year mod 4) 0), (Z.eqb_spec (year mod 100) 0),
    (Z.eqb_spec (year mod 400) 0); simpl; divmod.
Qed.

Lemma days_before_year_mono (y1 y2 : Z) :
  y1 <= y2 -> days_before_year y1 <= days_before_year y2.
Proof. unfold days_before_year. cbv zeta. intros H. divmod. Qed.

Lemma days_before_month_succ (year month : Z) :
  1 <= month <= 11 ->
  days_before_month year (month + 1)
  = days_before_month year month + days_in_month year month.
Proof.
  intros H. unfold days_before_month, days_in_month.
  month_cases month; destruct (is_leap year); simpl; tables; lia.
Qed.

Lemma days_before_month_mono (year m1 m2 : Z) :
  1 <= m1 -> m1 <= m2 -> m2 <= 12 ->
  days_before_month year m1 <= days_before_month year m2.
Proof.
  intros H1 H H2. unfold days_before_month.
  month_cases m1; month_cases m2; try lia;
    destruct (is_leap year); simpl; tables; lia.
Qed.

Lemma days_before_month_last (year : Z) :
  days_before_month year 12 + days_in_month year 12
  = 365 + (if is_leap year then 1 else 0).
Proof.
  unfold days_before_month, days_in_month.
  destruct (is_leap year); simpl; tables; lia.
Qed.

(** A valid date lies inside its year and inside its month. *)
Lemma ymd2ord_in_year (y m d : Z) :
  check_date_fields y m d = true ->
  days_before_year y < ymd2ord y m d <= days_before_year (y + 1).
Proof.
  unfold check_date_fields. rewrite !andb_true_iff, !between_true.
  intros [[Hy Hm] Hd]. unfold ymd2ord. rewrite days_before_year_succ.
  pose proof (days_before_month_mono y 1 m ltac:(lia) ltac:(lia) ltac:(lia)) as H1.
  change (days_before_month y 1) with (0 + if (false && is_leap y)%bool then 1 else 0) in H1.
  simpl in H1.
  assert (H2 : days_before_month y m + days_in_month y m
               <= 365 + (if is_leap y then 1 else 0)).
  { assert (Hc : m = 12 \/ m <= 11) by lia. destruct Hc as [-> | Hc].
    - rewrite days_before_month_last. lia.
    - rewrite <- days_before_month_succ by lia.
      rewrite <- days_before_month_last.
      pose proof (days_before_month_mono y (m + 1) 12
                    ltac:(lia) ltac:(lia) ltac:(lia)).
      pose proof (days_in_month_bounds y 12 ltac:(lia)). lia. }
  lia.
Qed.

Lemma ymd2ord_month_mono (y m1 d1 m2 d2 : Z) :
  check_date_fields y m1 d1 = true -> check_date_fields y m2 d2 = true ->
  m1 < m2 -> ymd2ord y m1 d1 < ymd2ord y m2 d2.
Proof.
  unfold check_date_fields. rewrite !andb_true_iff, !between_true.
  intros [[Hy Hm1] Hd1] [[_ Hm2] Hd2] Hlt. unfold ymd2ord.
  pose proof (days_before_month_succ y m1 ltac:(lia)).
  pose proof (days_before_month_mono y (m1 + 1) m2
                ltac:(lia) ltac:(lia) ltac:(lia)).
  lia.
Qed.

Lemma ymd2ord_year_mono (y1 m1 d1 y2 m2 d2 : Z) :
  check_date_fields y1 m1 d1 = true -> check_date_fields y2 m2 d2 = true ->
  y1 < y2 -> ymd2ord y1 m1 d1 < ymd2ord y2 m2 d2.
Proof.
  intros H1 H2 Hlt.
  pose proof (ymd2ord_in_year _ _ _ H1).
  pose proof (ymd2ord_in_year _ _ _ H2).
  pose proof (days_before_year_mono (y1 + 1) y2 ltac:(lia)). lia.
Qed.

(** Comparing the fields of two valid datetimes is comparing the instants
    they denote. *)
Lemma datetime_cmp_timestamp (a b : datetime) :
  valid_datetime a -> valid_datetime b ->
  datetime_cmp a b = (timestamp a ?= timestamp b).
Proof.
  intros [Hda Hta] [Hdb Htb].
  destruct a as [y1 m1 d1 h1 mi1 s1 u1], b as [y2 m2 d2 h2 mi2 s2 u2].
  simpl in *.
  unfold check_time_fields in Hta, Htb.
  rewrite !andb_true_iff, !between_true in Hta, Htb.
  unfold datetime_cmp, datetime_fields, timestamp, toordinal. simpl.
  symmetry.
  destruct (Z.compare_spec y1 y2) as [-> | Hy | Hy].
  2: { pose proof (ymd2ord_year_mono _ _ _ _ _ _ Hda Hdb Hy).
       apply Z.compare_lt_iff. lia. }
  2: { pose proof (ymd2ord_year_mono _ _ _ _ _ _ Hdb Hda Hy).
       apply Z.compare_gt_iff. lia. }
  destruct (Z.compare_spec m1 m2) as [-> | Hm | Hm].
  2: { pose proof (ymd2ord_month_mono _ _ _ _ _ Hda Hdb Hm).
       apply Z.compare_lt_iff. lia. }
  2: { pose proof (ymd2ord_month_mono _ _ _ _ _ Hdb Hda Hm).
       apply Z.compare_gt_iff. lia. }
  unfold ymd2ord.
  destruct (Z.compare_spec d1 d2) as [-> | Hd | Hd];
    [| apply Z.compare_lt_iff; lia | apply Z.compare_gt_iff; lia].
  destruct (Z.compare_spec h1 h2) as [-> | Hh | Hh];
    [| apply Z.compare_lt_iff; lia | apply Z.compare_gt_iff; lia].
  destruct (Z.compare_spec mi1 mi2) as [-> | Hmi | Hmi];
    [| apply Z.compare_lt_iff; lia | apply Z.compare_gt_iff; lia].
  destruct (Z.compare_spec s1 s2) as [-> | Hs | Hs];
    [| apply Z.compare_lt_iff; lia | apply Z.compare_gt_iff; lia].
  destruct (Z.compare_spec u1 u2) as [-> | Hu | Hu];
    [| apply Z.compare_lt_iff; lia | apply Z.compare_gt_iff; lia].
  apply Z.compare_refl.
Qed.

(** *** [ord2ymd] inverts [ymd2ord] *)

(** Evaluation of the tests and table entries whose arguments are
    literals. *)
Ltac literal_bool t :=
  let v := eval vm_compute in t in
  match v with
  | true => change t with true
  | false => change t with false
  end.

Ltac literals :=
  repeat (first
    [ match goal with
      | |- context [Z.ltb ?a ?b] => literal_bool (Z.ltb a b)
      | |- context [Z.eqb ?a ?b] => literal_bool (Z.eqb a b)
      | |- context [between ?a ?b ?c] => literal_bool (between a b c)
      end
    | progress cbv beta iota delta [andb orb negb]
    | progress tables ]).

Lemma days_before_year_cycles (n400 n100 n4 n1 : Z) :
  0 <= n400 -> 0 <= n100 <= 3 -> 0 <= n4 <= 24 -> 0 <= n1 <= 3 ->
  days_before_year (n400 * 400 + 1 + n100 * 100 + n4 * 4 + n1)
  = n400 * DI400Y + n100 * DI100Y + n4 * DI4Y + n1 * 365.
Proof.
  intros. unfold days_before_year, DI400Y, DI100Y, DI4Y. cbv zeta. divmod.
Qed.

Lemma is_leap_cycles (n400 n100 n4 n1 : Z) :
  0 <= n400 -> 0 <= n100 <= 3 -> 0 <= n4 <= 24 -> 0 <= n1 <= 3 ->
  is_leap (n400 * 400 + 1 + n100 * 100 + n4 * 4 + n1)
  = ((n1 =? 3) && (negb (n4 =? 24) || (n100 =? 3)))%bool.
Proof.
  intros. unfold is_leap.
  set (y := n400 * 400 + 1 + n100 * 100 + n4 * 4 + n1).
  assert (H4 : y mod 4 = 0 <-> n1 = 3) by (subst y; divmod).
  assert (H100 : y mod 100 = 0 <-> n1 = 3 /\ n4 = 24) by (subst y; divmod).
  assert (H400 : y mod 400 = 0 <-> n1 = 3 /\ n4 = 24 /\ n100 = 3)
    by (subst y; divmod).
  destruct (Z.eqb_spec (y mod 4) 0), (Z.eqb_spec (y mod 100) 0),
    (Z.eqb_spec (y mod 400) 0), (Z.eqb_spec n1 3), (Z.eqb_spec n4 24),
    (Z.eqb_spec n100 3); simpl; try reflexivity; exfalso; tauto.
Qed.

(** The month and the day of the [n]-th day of a year, [n] counted from
    zero, as the last part of [ord2ymd] finds them. *)
Lemma month_and_day (year n : Z) (leapyear : bool) :
  is_leap year = leapyear -> MINYEAR <= year <= MAXYEAR ->
  0 <= n <= 364 + (if leapyear then 1 else 0) ->
  let month := Z.shiftr (n + 50) 5 in
  let preceding :=
    table DAYS_BEFORE_MONTH month
    + (if ((2 <? month) && leapyear)%bool then 1 else 0) in
  let '(y, m, d) :=
    if n <? preceding then
      let month := month - 1 in
      let preceding :=
        preceding
        - (table DAYS_IN_MONTH month
           + (if ((month =? 2) && leapyear)%bool then 1 else 0)) in
      (year, month, n - preceding + 1)
    else (year, month, n - preceding + 1) in
  check_date_fields y m d = true /\ y = year /\ days_before_month y m + d = n + 1.
Proof.
  intros Hleap Hy Hn. cbv zeta.
  rewrite Z.shiftr_div_pow2 by lia. change (2 ^ 5) with 32.
  assert (Hq : 32 * ((n + 50) / 32) <= n + 50 < 32 * ((n + 50) / 32) + 32)
    by divmod.
  set (month := (n + 50) / 32) in *. clearbody month.
  assert (Hmonth : 1 <= month <= 12) by (destruct leapyear; lia).
  month_cases month; destruct leapyear; literals;
    match goal with
    | |- context [n <? ?c] => destruct (Z.ltb_spec n c)
    end; try (exfalso; lia); cbv beta iota;
    unfold check_date_fields, days_before_month, days_in_month;
    rewrite (proj2 (between_true MINYEAR year MAXYEAR) Hy), ?Hleap;
    literals;
    (split; [apply between_true; lia | split; [reflexivity | lia]]).
Qed.

Lemma ord2ymd_correct (n : Z) :
  1 <= n <= MAXORDINAL ->
  let '(y, m, d) := ord2ymd n in
  check_date_fields y m d = true /\ ymd2ord y m d = n.
Proof.
  intros Hn. unfold MAXORDINAL in Hn. unfold ord2ymd. cbv zeta.
  set (n0 := n - 1).
  set (n400 := n0 / DI400Y). set (r1 := n0 mod DI400Y).
  set (n100 := r1 / DI100Y). set (r2 := r1 mod DI100Y).
  set (n4 := r2 / DI4Y). set (r3 := r2 mod DI4Y).
  set (n1 := r3 / 365). set (r4 := r3 mod 365).
  assert (E1 : n0 = n400 * DI400Y + r1 /\ 0 <= r1 < DI400Y /\ 0 <= n400 <= 24
               /\ (n400 = 24 -> r1 <= 145730))
    by (subst n400 r1 n0; unfold DI400Y; divmod).
  assert (E2 : r1 = n100 * DI100Y + r2 /\ 0 <= r2 < DI100Y /\ 0 <= n100 <= 4
               /\ (n100 = 4 -> r2 = 0))
    by (subst n100 r2; unfold DI400Y, DI100Y in *; divmod).
  assert (E3 : r2 = n4 * DI4Y + r3 /\ 0 <= r3 < DI4Y /\ 0 <= n4 <= 24
               /\ (n4 = 24 -> r3 <= 1459))
    by (subst n4 r3; unfold DI100Y, DI4Y in *; divmod).
  assert (E4 : r3 = n1 * 365 + r4 /\ 0 <= r4 < 365 /\ 0 <= n1 <= 4
               /\ (n1 = 4 -> r4 = 0))
    by (subst n1 r4; unfold DI4Y in *; divmod).
  clearbody n400 r1 n100 r2 n4 r3 n1 r4.
  destruct E1 as (E1 & B1 & Q1 & L1), E2 as (E2 & B2 & Q2 & L2),
    E3 as (E3 & B3 & Q3 & L3), E4 as (E4 & B4 & Q4 & L4).
  unfold DI400Y, DI100Y, DI4Y in *.
  destruct (Z.eqb_spec n1 4) as [H1 | H1]; simpl.
  - (* the last day of a leap year that ends a four-year cycle *)
    specialize (L4 H1). subst n1 r4.
    assert (H100 : n100 <= 3) by lia.
    replace (n400 * 400 + 1 + n100 * 100 + n4 * 4 + 4 - 1)
      with (n400 * 400 + 1 + n100 * 100 + n4 * 4 + 3) by lia.
    pose proof (days_before_year_cycles n400 n100 n4 3
                  ltac:(lia) ltac:(lia) ltac:(lia) ltac:(lia)) as Hd.
    pose proof (is_leap_cycles n400 n100 n4 3
                  ltac:(lia) ltac:(lia) ltac:(lia) ltac:(lia)) as Hl.
    set (year := n400 * 400 + 1 + n100 * 100 + n4 * 4 + 3) in *.
    assert (Hn4 : n4 <> 24) by lia.
    destruct (Z.eqb_spec n4 24) as [|_]; [contradiction|]. simpl in Hl.
    unfold check_date_fields, ymd2ord, days_before_month, days_in_month.
    rewrite Hl, Hd. simpl. tables.
    rewrite (proj2 (between_true MINYEAR year MAXYEAR))
      by (unfold MINYEAR, MAXYEAR; subst year; lia).
    split; [reflexivity|]. unfold DI400Y, DI100Y, DI4Y. subst n0. lia.
  - destruct (Z.eqb_spec n100 4) as [H100 | H100]; simpl.
    + (* the last day of a 400-year cycle *)
      specialize (L2 H100). subst n100 r2.
      assert (n4 = 0 /\ r3 = 0) as [-> ->] by lia.
      assert (n1 = 0 /\ r4 = 0) as [-> ->] by lia.
      replace (n400 * 400 + 1 + 4 * 100 + 0 * 4 + 0 - 1)
        with (n400 * 400 + 1 + 3 * 100 + 24 * 4 + 3) by lia.
      pose proof (days_before_year_cycles n400 3 24 3
                    ltac:(lia) ltac:(lia) ltac:(lia) ltac:(lia)) as Hd.
      pose proof (is_leap_cycles n400 3 24 3
                    ltac:(lia) ltac:(lia) ltac:(lia) ltac:(lia)) as Hl.
      set (year := n400 * 400 + 1 + 3 * 100 + 24 * 4 + 3) in *.
      simpl in Hl.
      unfold check_date_fields, ymd2ord, days_before_month, days_in_month.
      rewrite Hl, Hd. simpl. tables.
      rewrite (proj2 (between_true MINYEAR year MAXYEAR))
        by (unfold MINYEAR, MAXYEAR; subst year; lia).
      split; [reflexivity|]. unfold DI400Y, DI100Y, DI4Y. subst n0. lia.
    + pose proof (days_before_year_cycles n400 n100 n4 n1
                    ltac:(lia) ltac:(lia) ltac:(lia) ltac:(lia)) as Hd.
      pose proof (is_leap_cycles n400 n100 n4 n1
                    ltac:(lia) ltac:(lia) ltac:(lia) ltac:(lia)) as Hl.
      set (year := n400 * 400 + 1 + n100 * 100 + n4 * 4 + n1) in *.
      assert (Hy : MINYEAR <= year <= MAXYEAR)
        by (unfold MINYEAR, MAXYEAR; subst year; lia).
      pose proof (month_and_day year r4 _ Hl Hy
                    ltac:(destruct (_ && _)%bool; lia)) as Hmd.
      cbv zeta in Hmd.
      destruct (if r4 <? _ then _ else _) as [[y m] d].
      destruct Hmd as (Hc & -> & Hdm).
      split; [exact Hc|].
      unfold ymd2ord. rewrite Hd. unfold DI400Y, DI100Y, DI4Y. subst n0. lia.
Qed.

(** *** Eleven hours earlier *)

Lemma toordinal_bounds (d : datetime) :
  valid_datetime d -> 1 <= toordinal d <= MAXORDINAL.
Proof.
  intros [Hd _]. unfold toordinal.
  pose proof (ymd2ord_in_year _ _ _ Hd) as H.
  unfold check_date_fields in Hd.
  rewrite !andb_true_iff, !between_true in Hd. destruct Hd as [[Hy _] _].
  pose proof (days_before_year_mono 1 (dt_year d) (proj1 Hy)) as H1.
  pose proof (days_before_year_mono (dt_year d + 1) (MAXYEAR + 1)
                ltac:(lia)) as H2.
  change (days_before_year 1) with 0 in H1.
  change (days_before_year (MAXYEAR + 1)) with MAXORDINAL in H2.
  lia.
Qed.

Lemma datetime_sub_eleven_hours (now : datetime) :
  valid_datetime now ->
  timestamp earliest_reading <= timestamp now ->
  exists r, datetime_sub now (timedelta_hours 11) = Ok r /\
            valid_datetime r /\
            timestamp r = timestamp now - eleven_hours.
Proof.
  intros Hv Hmin.
  pose proof (toordinal_bounds now Hv) as Hord.
  destruct Hv as [Hd Ht].
  unfold check_time_fields in Ht.
  rewrite !andb_true_iff, !between_true in Ht.
  destruct Ht as [[[Hh Hmi] Hs] Hu].
  change (timestamp earliest_reading) with ((24 + 11) * 3600 * 1000000) in Hmin.
  unfold timestamp in *. unfold eleven_hours.
  unfold datetime_sub, datetime_add.
  change (timedelta_neg (timedelta_hours 11)) with (mk_timedelta (-1) 46800 0).
  unfold timedelta_add, timedelta_new. cbn [td_days td_seconds td_microseconds].
  unfold MAXORDINAL in *.
  set (ord := toordinal now) in *. clearbody ord.
  set (S := dt_hour now * 3600 + dt_minute now * 60 + dt_second now).
  assert (HS : 0 <= S < 86400) by (subst S; lia).
  assert (Hts : ((ord * 24 + dt_hour now) * 60 + dt_minute now) * 60
                + dt_second now = ord * 86400 + S) by (subst S; lia).
  rewrite Hts in *. clearbody S.
  set (us := dt_microsecond now) in *. clearbody us.
  replace (S + us / 1000000) with S by divmod.
  replace (ord + S / 86400) with ord by divmod.
  replace (S mod 86400) with S by divmod.
  replace (us mod 1000000 + 0) with us by divmod.
  replace (S + 46800 + us / 1000000) with (S + 46800) by divmod.
  replace (us mod 1000000) with us by divmod.
  set (D := ord + -1 + (S + 46800) / 86400).
  set (secs := (S + 46800) mod 86400).
  assert (HD : D * 86400 + secs = ord * 86400 + S - 39600 /\ 0 <= secs < 86400)
    by (subst D secs; divmod).
  clearbody D secs. destruct HD as [HD Hsecs].
  assert (HDr : 1 <= D <= 3652059) by lia.
  rewrite (proj2 (Z.ltb_lt 0 D)) by lia.
  rewrite (proj2 (Z.leb_le D 3652059)) by lia.
  cbn [andb].
  pose proof (ord2ymd_correct D HDr) as Hc.
  destruct (ord2ymd D) as [[y m] dd]. destruct Hc as [Hc1 Hc2].
  eexists. split; [reflexivity|]. split.
  - split; [exact Hc1|]. cbn -[Z.div Z.modulo].
    unfold check_time_fields.
    rewrite !andb_true_iff, !between_true. divmod.
  - unfold timestamp, toordinal. cbn -[Z.div Z.modulo Z.mul Z.add].
    rewrite Hc2. divmod.
Qed.

(** ** The expiration date *)

Lemma Card_init_exp_date (raw cvv : string) (month year : Z) (c : Card_obj) :
  Card.init raw month year cvv = Ok c ->
  ExpDate.init month year = Ok (exp_date c) /\
  number c = sub_class (fun a => negb (is_digit a)) "" raw /\
  cvv2 c = cvv.
Proof.
  unfold Card.init. destruct (ExpDate.init month year) as [e | x]; simpl.
  - intros H. injection H as <-. auto.
  - discriminate.
Qed.

Lemma ExpDate_init_valid (month year : Z) (e : ExpDate_obj) :
  ExpDate.init month year = Ok e -> valid_datetime (expired_after e).
Proof.
  intros H. destruct (ExpDate_init_accepts _ _ _ H) as [Hm Hy].
  rewrite (ExpDate_init_ok _ _ Hm Hy) in H. injection H as <-.
  pose proof (days_in_month_bounds year month Hm).
  split; simpl; [|reflexivity].
  unfold check_date_fields.
  rewrite !andb_true_iff, !between_true. lia.
Qed.

Lemma last_instant_then_next_month (year month : Z) :
  1 <= month <= 12 ->
  timestamp (mk_datetime year month (days_in_month year month) 23 59 59 999999)
  + 1 = next_month_start year month.
Proof.
  intros Hm. unfold next_month_start, timestamp, toordinal, ymd2ord. simpl.
  destruct (Z.eqb_spec month 12) as [-> | Hne].
  - pose proof (days_before_month_last year).
    rewrite days_before_year_succ.
    change (days_before_month (year + 1) 1) with 0. lia.
  - rewrite (days_before_month_succ year month) by lia. lia.
Qed.

(** C8: for every month and year that the constructor of [ExpDate]
    accepts, [expired_after] is the last calendar day of that month, with
    the day count of the Gregorian calendar (leap years included), at
    23:59:59.999999.  No valid datetime of the same month is later, the
    next microsecond is the first instant of the following month, and for
    February 2024 the day is 29. *)
Theorem expired_after_is_last_instant (month year : Z) (e : ExpDate_obj) :
  ExpDate.init month year = Ok e ->
  expired_after e
  = mk_datetime year month (month_length year month) 23 59 59 999999 /\
  valid_datetime (expired_after e) /\
  (forall d : datetime,
      valid_datetime d -> dt_year d = year -> dt_month d = month ->
      datetime_gt d (expired_after e) = false) /\
  timestamp (expired_after e) + 1 = next_month_start year month /\
  (month = 2 -> year = 2024 -> dt_day (expired_after e) = 29).
Proof.
  intros H. pose proof (ExpDate_init_valid _ _ _ H) as Hv.
  destruct (ExpDate_init_accepts _ _ _ H) as [Hm Hy].
  rewrite (ExpDate_init_ok _ _ Hm Hy) in H. injection H as <-.
  cbn [expired_after] in *.
  split; [rewrite days_in_month_length by exact Hm; reflexivity|].
  split; [exact Hv|]. split; [|split].
  - intros d Hd Hdy Hdm. unfold datetime_gt.
    rewrite (datetime_cmp_timestamp _ _ Hd Hv).
    destruct Hd as [Hdate Htime].
    unfold check_date_fields in Hdate. unfold check_time_fields in Htime.
    repeat (rewrite andb_true_iff in Hdate || rewrite between_true in Hdate).
    repeat (rewrite andb_true_iff in Htime || rewrite between_true in Htime).
    rewrite Hdy, Hdm in Hdate.
    assert (Hle : timestamp d
                  <= timestamp (mk_datetime year month
                                  (days_in_month year month) 23 59 59 999999)).
    { unfold timestamp, toordinal, ymd2ord. rewrite Hdy, Hdm.
      cbn [dt_year dt_month dt_day dt_hour dt_minute dt_second
           dt_microsecond]. lia. }
    destruct (Z.compare_spec (timestamp d)
                (timestamp (mk_datetime year month
                              (days_in_month year month) 23 59 59 999999)));
      try reflexivity; lia.
  - apply last_instant_then_next_month. exact Hm.
  - intros -> ->. reflexivity.
Qed.

Lemma expired_after_is_last_instant_witness :
  ExpDate.init 2 2024 = Ok (mk_ExpDate (mk_datetime 2024 2 29 23 59 59 999999)) /\
  dt_day (expired_after (mk_ExpDate (mk_datetime 2024 2 29 23 59 59 999999))) = 29.
Proof.
  split; [reflexivity|].
  apply (expired_after_is_last_instant 2 2024
           (mk_ExpDate (mk_datetime 2024 2 29 23 59 59 999999)));
    reflexivity.
Defined.

(** C7: [is_expired] is true exactly when the reading of the UTC clock,
    taken back by eleven hours, is strictly later than [expired_after];
    when the two instants are equal, or the shifted reading is earlier, it
    is false.  The reading is any valid datetime from 0001-01-01 11:00 on,
    so that the shifted instant is a datetime. *)
Theorem is_expired_samoa_cutoff (depth : nat) (E : env) (c : Card_obj) :
  valid_datetime (utcnow E) ->
  valid_datetime (expired_after (exp_date c)) ->
  timestamp earliest_reading <= timestamp (utcnow E) ->
  let later :=
    timestamp (expired_after (exp_date c))
    <? timestamp (utcnow E) - eleven_hours in
  ExpDate.getattr (S depth) E (exp_date c) "is_expired" = Ok (VBool later) /\
  Card.getattr (S (S depth)) E c "is_expired" = Ok (VBool later).
Proof.
  intros Hnow Hexp Hmin later.
  assert (He : ExpDate.getattr (S depth) E (exp_date c) "is_expired"
               = Ok (VBool later)).
  { rewrite ExpDate_is_expired. unfold ExpDate.is_expired.
    destruct (datetime_sub_eleven_hours _ Hnow Hmin) as (r & -> & Hr & Hts).
    simpl. rewrite ExpDate_expired_after. simpl.
    unfold datetime_gt. rewrite (datetime_cmp_timestamp _ _ Hr Hexp), Hts.
    subst later. rewrite Z.ltb_compare, (Z.compare_antisym _ (timestamp _ - _)).
    destruct (_ ?= _); reflexivity. }
  split; [exact He|].
  rewrite Card_is_expired_delegates. exact He.
Qed.

Lemma is_expired_samoa_cutoff_witness :
  ExpDate.getattr 1 sample_env sample_exp_date "is_expired" = Ok (VBool false) /\
  Card.getattr 2 sample_env (sample_card "4111111111111111") "is_expired"
  = Ok (VBool false).
Proof.
  apply (is_expired_samoa_cutoff 0 sample_env (sample_card "4111111111111111")).
  - split; reflexivity.
  - split; reflexivity.
  - vm_compute. discriminate.
Defined.

(** C9: a month outside 1..12 makes both constructors raise
    [IllegalMonthError], the invalid-date error of [calendar.monthrange];
    no [ExpDate] and no [Card] is built. *)
Theorem illegal_month_raises (raw cvv : string) (month year : Z) :
  ~ 1 <= month <= 12 ->
  ExpDate.init month year = Raise (IllegalMonthError month) /\
  Card.init raw month year cvv = Raise (IllegalMonthError month).
Proof.
  intros H. unfold Card.init, ExpDate.init.
  rewrite (monthrange_illegal_month year month H). split; reflexivity.
Qed.

Lemma illegal_month_raises_witness :
  (ExpDate.init 13 2024 = Raise (IllegalMonthError 13) /\
   Card.init "4111111111111111" 13 2024 "123" = Raise (IllegalMonthError 13)) /\
  (ExpDate.init 0 2024 = Raise (IllegalMonthError 0) /\
   Card.init "4111111111111111" 0 2024 "123" = Raise (IllegalMonthError 0)).
Proof.
  split.
  - apply (illegal_month_raises "4111111111111111" "123" 13 2024). lia.
  - apply (illegal_month_raises "4111111111111111" "123" 0 2024). lia.
Defined.

(** ** The mod-10 checksum *)

Lemma get_nth_error (s : string) (i : nat) :
  String.get i s = nth_error (chars s) i.
Proof.
  revert i. induction s as [|a s IH]; intros [|i]; simpl; auto.
Qed.

Lemma length_chars (s : string) : List.length (chars s) = String.length s.
Proof. induction s; simpl; congruence. Qed.

Lemma py_index_nth (s : string) (i : nat) (a : ascii) :
  nth_error (chars s) i = Some a -> py_index s (Z.of_nat i) = Ok a.
Proof.
  intros H. unfold py_index.
  assert (Hi : (Z.of_nat i <? 0) = false) by (apply Z.ltb_ge; lia).
  rewrite Hi. cbv zeta. rewrite Hi.
  rewrite Nat2Z.id, get_nth_error, H. reflexivity.
Qed.

(** A loop over indices is the loop over the items found there. *)
Lemma for_each_map {A B S : Type} (f : A -> B) (body : S -> B -> result S)
    (items : list A) (st : S) :
  for_each (map f items) body st = for_each items (fun st x => body st (f x)) st.
Proof.
  revert st. induction items as [|x items IH]; intros st; simpl; [reflexivity|].
  destruct (body st (f x)); simpl; auto.
Qed.

Lemma for_each_ext {A S : Type} (body1 body2 : S -> A -> result S)
    (items : list A) (st : S) :
  (forall st x, In x items -> body1 st x = body2 st x) ->
  for_each items body1 st = for_each items body2 st.
Proof.
  revert st. induction items as [|x items IH]; intros st H; simpl; [reflexivity|].
  rewrite (H st x) by (left; reflexivity).
  destruct (body2 st x); simpl; [|reflexivity].
  apply IH. intros st' y Hy. apply H. right. exact Hy.
Qed.

(** The characters of a string, rightmost first, by their indices. *)
Lemma rev_by_index (l : list ascii) (d : ascii) :
  map (fun k => nth (List.length l - 1 - k) l d) (seq 0 (List.length l))
  = rev l.
Proof.
  apply nth_error_ext. intros i.
  rewrite nth_error_map, nth_error_seq, nth_error_rev.
  destruct (Nat.ltb_spec i (List.length l)) as [Hlt | Hge]; simpl;
    [|reflexivity].
  rewrite (nth_error_nth' l d) by lia.
  f_equal. f_equal. lia.
Qed.

Lemma py_index_nth' (s : string) (i : nat) (d : ascii) :
  (i < List.length (chars s))%nat ->
  py_index s (Z.of_nat i) = Ok (nth i (chars s) d).
Proof.
  intros H. apply py_index_nth. apply nth_error_nth'. exact H.
Qed.

Lemma is_digit_value (c : ascii) :
  is_digit c = true <-> 0 <= digit_value c <= 9.
Proof.
  unfold is_digit, digit_value.
  rewrite andb_true_iff, !Nat.leb_le. lia.
Qed.

Lemma int_of_char_digit (c : ascii) :
  is_digit c = true -> int_of_char c = Ok (digit_value c).
Proof. intros H. unfold int_of_char. rewrite H. reflexivity. Qed.

Ltac digit_cases d :=
  let H := fresh "Hd" in
  assert (H : d = 0 \/ d = 1 \/ d = 2 \/ d = 3 \/ d = 4 \/ d = 5 \/ d = 6 \/
              d = 7 \/ d = 8 \/ d = 9) by lia;
  repeat (destruct H as [H | H]); rewrite H in *.

(** The inner loop of [is_mod10_valid] adds the decimal digits of the
    product to the total. *)
Lemma add_digits (l : list ascii) (tot : Z) :
  forallb is_digit l = true ->
  for_each l (fun tot c => v <- int_of_char c ;; Ok (tot + v)) tot
  = Ok (tot + fold_right (fun c acc => digit_value c + acc) 0 l).
Proof.
  revert tot. induction l as [|c l IH]; intros tot H; simpl.
  - f_equal. lia.
  - apply andb_true_iff in H. destruct H as [Hc Hl].
    rewrite (int_of_char_digit c Hc). simpl. rewrite (IH _ Hl).
    f_equal. lia.
Qed.

Lemma add_product_digits (position : nat) (d tot : Z) :
  0 <= d <= 9 ->
  for_each
    (chars (str_of_int (((if Nat.odd position then 1 else 0) + 1) * d)))
    (fun tot c => v <- int_of_char c ;; Ok (tot + v)) tot
  = Ok (tot + luhn_term position d).
Proof.
  intros Hd. unfold luhn_term.
  digit_cases d; destruct (Nat.odd position);
    (rewrite add_digits by reflexivity); do 2 f_equal.
Qed.

Lemma parity_Z (i : nat) :
  Z.of_nat i mod 2 = if Nat.odd i then 1 else 0.
Proof.
  rewrite <- Nat.negb_even.
  destruct (Nat.even i) eqn:He; simpl.
  - apply Nat.even_spec in He. destruct He as [k ->].
    rewrite Nat2Z.inj_mul. change (Z.of_nat 2) with 2. divmod.
  - assert (Ho : Nat.odd i = true) by (rewrite <- Nat.negb_even, He; reflexivity).
    apply Nat.odd_spec in Ho. destruct Ho as [k ->].
    rewrite Nat2Z.inj_add, Nat2Z.inj_mul. change (Z.of_nat 2) with 2.
    change (Z.of_nat 1) with 1. divmod.
Qed.

(** The outer loop, character by character from the right. *)
Lemma mod10_chars (l : list ascii) (position : nat) (tot : Z) :
  forallb is_digit l = true ->
  for_each l mod10_char_step (Z.of_nat position mod 2, tot)
  = Ok (Z.of_nat (position + List.length l) mod 2,
        tot + luhn_terms position (map digit_value l)).
Proof.
  revert position tot. induction l as [|c l IH]; intros position tot H.
  - simpl. rewrite Nat.add_0_r. do 2 f_equal. lia.
  - apply andb_true_iff in H. destruct H as [Hc Hl].
    cbn [for_each mod10_char_step].
    rewrite (int_of_char_digit c Hc). cbn [bind].
    rewrite parity_Z.
    rewrite add_product_digits by (apply is_digit_value; exact Hc).
    cbn [bind].
    replace (((if Nat.odd position then 1 else 0) + 1) mod 2)
      with (Z.of_nat (S position) mod 2).
    2: { rewrite parity_Z, Nat.odd_succ, <- Nat.negb_odd.
         destruct (Nat.odd position); reflexivity. }
    rewrite (IH (S position) _ Hl). cbn [map luhn_terms List.length].
    rewrite Nat.add_succ_r. simpl Nat.add. do 2 f_equal. lia.
Qed.

Lemma mod10_loop (self_ : string -> result pyval) (s : string) (st : Z * Z) :
  self_ "number" = Ok (VStr s) ->
  for_each (range_down (py_len s - 1) (-1)) (Card.mod10_step self_) st
  = for_each (rev (chars s)) mod10_char_step st.
Proof.
  intros Hnum. unfold range_down, py_len.
  replace (Z.to_nat (Z.of_nat (String.length s) - 1 - -1))
    with (List.length (chars s)) by (rewrite length_chars; lia).
  rewrite <- (rev_by_index (chars s) "0"%char), !for_each_map.
  apply for_each_ext. intros [dub tot] k Hk.
  apply in_seq in Hk. unfold Card.mod10_step, mod10_char_step.
  rewrite Hnum. cbn [bind as_str].
  replace (Z.of_nat (String.length s) - 1 - Z.of_nat k)
    with (Z.of_nat (List.length (chars s) - 1 - k))
    by (rewrite length_chars in *; lia).
  rewrite (py_index_nth' s _ "0"%char) by lia.
  reflexivity.
Qed.

Lemma forallb_reversed {A : Type} (p : A -> bool) (l : list A) :
  forallb p (rev l) = forallb p l.
Proof.
  induction l as [|x l IH]; simpl; [reflexivity|].
  rewrite forallb_app, IH. simpl. rewrite andb_true_r. apply andb_comm.
Qed.

(** [is_mod10_valid] on a digit-only number tests the Luhn sum. *)
Lemma is_mod10_valid_luhn (depth : nat) (E : env) (c : Card_obj) :
  digits_only (number c) ->
  Card.getattr (S depth) E c "is_mod10_valid"
  = Ok (VBool (luhn_sum (number c) mod 10 =? 0)).
Proof.
  intros Hd. rewrite Card_is_mod10_valid. unfold Card.is_mod10_valid.
  rewrite Card_number. cbn [bind as_str].
  rewrite (mod10_loop _ _ _ (Card_number depth E c)).
  change (0, 0) with (Z.of_nat 0 mod 2, 0).
  rewrite mod10_chars by (rewrite forallb_reversed; exact Hd).
  cbn [bind]. unfold luhn_sum. rewrite map_rev. reflexivity.
Qed.

Lemma luhn_terms_app (position : nat) (x y : list Z) :
  luhn_terms position (x ++ y)
  = luhn_terms position x + luhn_terms (position + List.length x) y.
Proof.
  revert position. induction x as [|d x IH]; intros position; simpl.
  - rewrite Nat.add_0_r. reflexivity.
  - rewrite IH, Nat.add_succ_r. simpl. lia.
Qed.

(** Two different digits at the same position never give terms that
    agree modulo 10. *)
Lemma luhn_term_separates (position : nat) (a b : Z) :
  0 <= a <= 9 -> 0 <= b <= 9 -> a <> b ->
  (luhn_term position a - luhn_term position b) mod 10 <> 0.
Proof.
  intros Ha Hb Hne. unfold luhn_term, digit_sum.
  destruct (Nat.odd position).
  - digit_cases a; digit_cases b; try congruence; vm_compute; discriminate.
  - divmod.
Qed.

Lemma digit_value_inj (a b : ascii) : digit_value a = digit_value b -> a = b.
Proof.
  unfold digit_value. intros H.
  rewrite <- (ascii_nat_embedding a), <- (ascii_nat_embedding b).
  f_equal. lia.
Qed.

(** Changing one digit of a number whose Luhn sum is divisible by 10
    gives a number whose Luhn sum is not. *)
Lemma luhn_detects_one_digit (s s' : string) (pre post : list ascii)
    (a b : ascii) :
  chars s = (pre ++ a :: post)%list -> chars s' = (pre ++ b :: post)%list ->
  is_digit a = true -> is_digit b = true -> a <> b ->
  luhn_sum s mod 10 = 0 -> luhn_sum s' mod 10 <> 0.
Proof.
  intros Hs Hs' Ha Hb Hne. unfold luhn_sum. rewrite Hs, Hs'.
  rewrite !map_app, !rev_app_distr. cbn [map rev].
  rewrite <- !app_assoc. cbn [app].
  rewrite !luhn_terms_app. cbn [luhn_terms].
  set (k := (0 + List.length (rev (map digit_value post)))%nat).
  set (A := luhn_terms 0 (rev (map digit_value post))).
  set (B := luhn_terms (S k) (rev (map digit_value pre))).
  pose proof (luhn_term_separates k (digit_value a) (digit_value b)
                (proj1 (is_digit_value a) Ha) (proj1 (is_digit_value b) Hb)
                (fun H => Hne (digit_value_inj a b H))) as Hsep.
  clearbody A B. intros H1 H2. apply Hsep. divmod.
Qed.

Lemma digits_only_app (s : string) (pre post : list ascii) (a : ascii) :
  chars s = (pre ++ a :: post)%list ->
  digits_only s <->
  forallb is_digit pre = true /\ is_digit a = true /\
  forallb is_digit post = true.
Proof.
  intros H. unfold digits_only. rewrite H, forallb_app. simpl.
  rewrite !andb_true_iff. tauto.
Qed.

(** C4: on a digit-only number, [is_mod10_valid] is true exactly when the
    Luhn sum is divisible by 10: from the right, every second digit is
    doubled and the decimal digits of the product are added, the other
    digits are added as they are.  So a number with a valid Luhn sum
    passes, and a number that differs from it in one digit fails. *)
Theorem is_mod10_valid_is_luhn (depth : nat) (E : env) (c : Card_obj) :
  digits_only (number c) ->
  Card.getattr (S depth) E c "is_mod10_valid"
  = Ok (VBool (luhn_sum (number c) mod 10 =? 0)) /\
  (luhn_sum (number c) mod 10 = 0 ->
   Card.getattr (S depth) E c "is_mod10_valid" = Ok (VBool true) /\
   forall (c' : Card_obj) (pre post : list ascii) (a b : ascii),
     chars (number c) = (pre ++ a :: post)%list ->
     chars (number c') = (pre ++ b :: post)%list ->
     is_digit b = true -> a <> b ->
     Card.getattr (S depth) E c' "is_mod10_valid" = Ok (VBool false)).
Proof.
  intros Hd. split; [apply is_mod10_valid_luhn; exact Hd|].
  intros Hvalid. split.
  - rewrite is_mod10_valid_luhn by exact Hd. rewrite Hvalid. reflexivity.
  - intros c' pre post a b Hc Hc' Hb Hne.
    destruct (proj1 (digits_only_app _ _ _ _ Hc) Hd) as (Hpre & Ha & Hpost).
    rewrite is_mod10_valid_luhn
      by (apply (digits_only_app _ _ _ _ Hc'); auto).
    pose proof (luhn_detects_one_digit _ _ _ _ _ _ Hc Hc' Ha Hb Hne Hvalid)
      as Hbad.
    destruct (Z.eqb_spec (luhn_sum (number c') mod 10) 0);
      [contradiction | reflexivity].
Qed.

Lemma is_mod10_valid_is_luhn_witness :
  Card.getattr 1 sample_env (sample_card "4111111111111111") "is_mod10_valid"
  = Ok (VBool true) /\
  Card.getattr 1 sample_env (sample_card "4111111111111112") "is_mod10_valid"
  = Ok (VBool false).
Proof.
  pose proof (is_mod10_valid_is_luhn 0 sample_env
                (sample_card "4111111111111111") eq_refl) as [_ H].
  destruct (H eq_refl) as [Hpass Hfail]. split; [exact Hpass|].
  apply (Hfail (sample_card "4111111111111112")
           (chars "411111111111111") [] "1"%char "2"%char);
    [reflexivity | reflexivity | reflexivity | discriminate].
Defined.

(** C3, as the code has it: on the empty number [is_mod10_valid] does not
    raise and returns true, the empty sum being divisible by 10. *)
Theorem empty_number_passes_mod10 (depth : nat) (E : env) (e : ExpDate_obj)
    (cvv : string) :
  Card.getattr (S depth) E (mk_Card "" e cvv) "is_mod10_valid" = Ok (VBool true).
Proof. apply is_mod10_valid_luhn. reflexivity. Qed.

(** C3 as stated fails: a card built from a number without digits has the
    empty number, and its checksum test is not false. *)
Lemma empty_number_mod10_not_false :
  exists c : Card_obj,
    Card.init "" 1 2030 "000" = Ok c /\ number c = "" /\
    Card.getattr 1 sample_env c "is_mod10_valid" <> Ok (VBool false).
Proof.
  eexists. split; [reflexivity|]. split; [reflexivity|].
  vm_compute. discriminate.
Qed.

(** ** Test numbers *)

Lemma in_tuple (s : string) (items : list string) :
  existsb (py_eq (VStr s)) (map VStr items) = existsb (String.eqb s) items.
Proof. induction items as [|x items IH]; simpl; congruence. Qed.

(** C10: [is_test] is true exactly when the number is one of the 13
    entries of [TESTS].  The Mastercard entry of the table has 15 digits,
    so the 16-digit 5555555555554444 is not a test number and the
    15-digit 555555555554444 is. *)
Theorem is_test_is_table_membership (depth : nat) (E : env) (c : Card_obj) :
  Card.getattr (S depth) E c "is_test"
  = Ok (VBool (existsb (String.eqb (number c)) Card.TESTS)) /\
  (existsb (String.eqb (number c)) Card.TESTS = true
   <-> In (number c) Card.TESTS) /\
  List.length Card.TESTS = 13%nat /\
  (number c = "5555555555554444" ->
   Card.getattr (S depth) E c "is_test" = Ok (VBool false)) /\
  (number c = "555555555554444" ->
   Card.getattr (S depth) E c "is_test" = Ok (VBool true)).
Proof.
  assert (H : Card.getattr (S depth) E c "is_test"
              = Ok (VBool (existsb (String.eqb (number c)) Card.TESTS))).
  { rewrite Card_is_test. unfold Card.is_test.
    rewrite Card_number, Card_TESTS. cbn [bind py_in].
    rewrite in_tuple. reflexivity. }
  split; [exact H|]. split; [|split; [reflexivity|split]].
  - rewrite existsb_exists. split.
    + intros (x & Hin & Heq). apply String.eqb_eq in Heq. subst x. exact Hin.
    + intros Hin. exists (number c). split; [exact Hin | apply String.eqb_refl].
  - intros Hn. rewrite H, Hn. reflexivity.
  - intros Hn. rewrite H, Hn. reflexivity.
Qed.

Lemma is_test_is_table_membership_witness :
  Card.getattr 1 sample_env (sample_card "5555555555554444") "is_test"
  = Ok (VBool false) /\
  Card.getattr 1 sample_env (sample_card "555555555554444") "is_test"
  = Ok (VBool true).
Proof.
  split.
  - apply (is_test_is_table_membership 0 sample_env
             (sample_card "5555555555554444")).
    reflexivity.
  - apply (is_test_is_table_membership 0 sample_env
             (sample_card "555555555554444")).
    reflexivity.
Defined.

(** ** Names that no class binds *)

(** C2, evaluated on the code: operations other than the constructors
    do raise.  [mask] raises [AttributeError] on every card, because
    [Card] binds no [card_type]; [mm], [yyyy] and [mmyyyy] raise it on
    every expiration date, because [ExpDate] binds no [exp_date]; and
    [is_valid] raises it on every card that is not expired, because
    [Card] binds no [is_mod10]. *)
Theorem properties_raise_AttributeError (depth : nat) (E : env) (c : Card_obj) :
  Card.getattr (S depth) E c "mask" = Raise (AttributeError "Card" "card_type") /\
  ExpDate.getattr (S depth) E (exp_date c) "mm"
  = Raise (AttributeError "ExpDate" "exp_date") /\
  ExpDate.getattr (S depth) E (exp_date c) "yyyy"
  = Raise (AttributeError "ExpDate" "exp_date") /\
  ExpDate.getattr (S depth) E (exp_date c) "mmyyyy"
  = Raise (AttributeError "ExpDate" "exp_date") /\
  Card.getattr (S (S (S depth))) E c "is_valid"
  = match Card.getattr (S (S depth)) E c "is_expired" with
    | Ok a =>
        if truthy a then Ok (VBool false)
        else Raise (AttributeError "Card" "is_mod10")
    | Raise e => Raise e
    end.
Proof.
  split; [apply mask_raises|].
  assert (H : forall name getter,
             getter (ExpDate.getattr depth E (exp_date c))
             = (d <- ExpDate.getattr depth E (exp_date c) "exp_date" ;;
                py_strftime d name) ->
             getter (ExpDate.getattr depth E (exp_date c))
             = Raise (AttributeError "ExpDate" "exp_date")).
  { intros name getter ->. rewrite ExpDate_exp_date. reflexivity. }
  split; [apply (H "%m"); reflexivity|].
  split; [apply (H "%Y"); reflexivity|].
  split; [apply (H "%m/%Y"); reflexivity|].
  apply is_valid_cases.
Qed.

(** C1, evaluated on the code: for a card that is not expired and whose
    number passes the checksum, [is_valid] does not return true: it raises
    [AttributeError], since it reads [self.is_mod10] and the property is
    named [is_mod10_valid]. *)
Theorem is_valid_raises_on_unexpired_card (depth : nat)
    (order : list (string * regex)) :
  let E := mk_env (mk_datetime 2024 6 15 12 0 0 0) order in
  exists c : Card_obj,
    Card.init "4111111111111111" 12 2030 "123" = Ok c /\
    Card.getattr (S (S depth)) E c "is_expired" = Ok (VBool false) /\
    Card.getattr (S depth) E c "is_mod10_valid" = Ok (VBool true) /\
    Card.getattr (S (S (S depth))) E c "is_valid"
    = Raise (AttributeError "Card" "is_mod10").
Proof.
  intros E.
  exists (mk_Card "4111111111111111"
            (mk_ExpDate (mk_datetime 2030 12 31 23 59 59 999999)) "123").
  split; [reflexivity|].
  assert (He : Card.getattr (S (S depth)) E
                 (mk_Card "4111111111111111"
                    (mk_ExpDate (mk_datetime 2030 12 31 23 59 59 999999)) "123")
                 "is_expired" = Ok (VBool false)).
  { rewrite Card_is_expired_delegates, ExpDate_is_expired.
    unfold ExpDate.is_expired. rewrite ExpDate_expired_after. reflexivity. }
  split; [exact He|]. split.
  - apply is_mod10_valid_luhn. reflexivity.
  - rewrite is_valid_cases, He. reflexivity.
Qed.

(** C6, evaluated on the code: [mask] returns neither of the two masked
    strings; on the Amex number and on the Visa number alike it raises
    [AttributeError], since it reads [self.card_type] and the property is
    named [brand]. *)
Theorem mask_raises_on_amex_and_visa (depth : nat) (E : env) :
  (exists c : Card_obj,
      Card.init "378282246310005" 12 2030 "123" = Ok c /\
      Card.getattr (S depth) E c "mask"
      = Raise (AttributeError "Card" "card_type")) /\
  (exists c : Card_obj,
      Card.init "4111111111111111" 12 2030 "123" = Ok c /\
      Card.getattr (S depth) E c "mask"
      = Raise (AttributeError "Card" "card_type")).
Proof.
  split; eexists; (split; [reflexivity | apply mask_raises]).
Qed.

(** ** Brands *)

Lemma brand_loop_first (self_ : string -> result pyval) (s : string)
    (items : list (string * regex)) :
  self_ "number" = Ok (VStr s) ->
  Card.brand_loop self_ items
  = Ok (option_map (fun item => VStr (fst item)) (hd_error (matching s items))).
Proof.
  intros Hnum. induction items as [|[b r] items IH]; simpl; [reflexivity|].
  rewrite Hnum. simpl. destruct (re_match r s); simpl; [reflexivity | exact IH].
Qed.

Lemma matching_permutation (s : string) (l l' : list (string * regex)) :
  Permutation l l' -> Permutation (matching s l) (matching s l').
Proof.
  unfold matching. induction 1 as [| x l l' _ IH | x y l | l l' l'' _ IH1 _ IH2];
    simpl.
  - constructor.
  - destruct (re_match (snd x) s); [constructor|]; exact IH.
  - destruct (re_match (snd x) s), (re_match (snd y) s);
      try apply Permutation_refl. apply perm_swap.
  - eapply Permutation_trans; eassumption.
Qed.

(** The four patterns start differently, so no number matches two. *)
Ltac run_matcher :=
  unfold re_match; cbn -[Ascii.eqb is_digit nat_of_ascii Nat.leb].

Ltac first_chars :=
  repeat match goal with
         | |- context [Ascii.eqb ?x ?y] =>
             is_var y; destruct (Ascii.eqb_spec x y); [subst y|];
             cbn -[Ascii.eqb is_digit nat_of_ascii Nat.leb]
         end.

Lemma visa_first (s : string) :
  re_match Card.visa_re s = true -> exists t, s = String "4" t.
Proof.
  destruct s as [|a s]; run_matcher; [discriminate|].
  first_chars; [eauto | discriminate].
Qed.

Lemma amex_first (s : string) :
  re_match Card.amex_re s = true -> exists t, s = String "3" t.
Proof.
  destruct s as [|a s]; run_matcher; [discriminate|].
  first_chars; [eauto | discriminate].
Qed.

Lemma mastercard_first (s : string) :
  re_match Card.mastercard_re s = true ->
  exists t, s = String "5" t \/ s = String "6" (String "7" t).
Proof.
  destruct s as [|a [|b s]]; run_matcher; [discriminate | |].
  - first_chars; discriminate.
  - first_chars; try discriminate; eauto.
Qed.

Lemma discover_first (s : string) :
  re_match Card.discover_re s = true ->
  exists t, s = String "6" (String "0" t) \/ s = String "6" (String "5" t).
Proof.
  destruct s as [|a [|b s]]; run_matcher; [discriminate | |].
  - first_chars; discriminate.
  - first_chars; try discriminate; eauto.
Qed.

Lemma patterns_exclusive (s : string) :
  (List.length (matching s Card.BRANDS) <= 1)%nat.
Proof.
  unfold matching, Card.BRANDS. cbn [filter snd].
  destruct (re_match Card.visa_re s) eqn:V,
    (re_match Card.mastercard_re s) eqn:M,
    (re_match Card.amex_re s) eqn:A,
    (re_match Card.discover_re s) eqn:D; cbn [List.length]; try lia; exfalso;
    try (apply visa_first in V; destruct V as [t1 V]);
    try (apply mastercard_first in M; destruct M as [t2 [M | M]]);
    try (apply amex_first in A; destruct A as [t3 A]);
    try (apply discover_first in D; destruct D as [t4 [D | D]]);
    congruence.
Qed.

Lemma short_permutation {A : Type} (l l' : list A) :
  Permutation l l' -> (List.length l' <= 1)%nat -> l = l'.
Proof.
  intros H Hlen. destruct l' as [|x [|y l']]; simpl in Hlen; [| |lia].
  - apply Permutation_nil. apply Permutation_sym. exact H.
  - apply Permutation_length_1_inv. apply Permutation_sym. exact H.
Qed.

(** Whatever the order in which the dict is iterated, the first pattern
    that matches is the only one that does. *)
Lemma first_matching (s : string) (items : list (string * regex)) :
  Permutation items Card.BRANDS ->
  option_map (fun item => fst item) (hd_error (matching s items))
  = if String.eqb (brand_of s) Card.BRAND_UNKNOWN then None
    else Some (brand_of s).
Proof.
  intros H.
  rewrite (short_permutation _ _ (matching_permutation s _ _ H)
             (patterns_exclusive s)).
  unfold matching, Card.BRANDS, brand_of. cbn [filter snd].
  destruct (re_match Card.visa_re s), (re_match Card.mastercard_re s),
    (re_match Card.amex_re s), (re_match Card.discover_re s); reflexivity.
Qed.

Lemma brand_value (depth : nat) (E : env) (c : Card_obj) :
  Permutation (BRANDS_items E) Card.BRANDS ->
  Card.getattr (S depth) E c "brand" = Ok (VStr (brand_of (number c))).
Proof.
  intros H. rewrite Card_brand. unfold Card.brand.
  rewrite Card_BRANDS. cbn [bind iteritems].
  rewrite (brand_loop_first _ (number c)) by apply Card_number.
  cbn [bind]. pose proof (first_matching (number c) _ H) as Hf.
  destruct (hd_error (matching (number c) (BRANDS_items E))) as [item|];
    simpl in Hf |- *.
  - destruct (String.eqb _ _); [discriminate|]. congruence.
  - rewrite Card_BRAND_UNKNOWN.
    destruct (String.eqb_spec (brand_of (number c)) Card.BRAND_UNKNOWN);
      [congruence | discriminate].
Qed.

(** C5: the brand depends on the number alone: it is the value of
    [brand_of], whatever the order in which [BRANDS] is iterated.  It is
    visa, mastercard, amex or discover exactly when the number matches the
    pattern of that brand, and unknown exactly when it matches none of
    the four; the five numbers of the documentation get the brands it
    names. *)
Theorem brand_is_pattern_match (depth : nat) (E : env) (c : Card_obj) :
  Permutation (BRANDS_items E) Card.BRANDS ->
  let s := number c in
  Card.getattr (S depth) E c "brand" = Ok (VStr (brand_of s)) /\
  (brand_of s = "visa" <-> re_match Card.visa_re s = true) /\
  (brand_of s = "mastercard" <-> re_match Card.mastercard_re s = true) /\
  (brand_of s = "amex" <-> re_match Card.amex_re s = true) /\
  (brand_of s = "discover" <-> re_match Card.discover_re s = true) /\
  (brand_of s = "unknown" <->
   re_match Card.visa_re s = false /\ re_match Card.mastercard_re s = false /\
   re_match Card.amex_re s = false /\ re_match Card.discover_re s = false) /\
  brand_of "4111111111111111" = "visa" /\
  brand_of "378282246310005" = "amex" /\
  brand_of "6011111111111117" = "discover" /\
  brand_of "5105105105105100" = "mastercard" /\
  brand_of "0000000000000000" = "unknown".
Proof.
  intros H s. split; [apply brand_value; exact H|].
  pose proof (patterns_exclusive s) as Hx.
  unfold matching, Card.BRANDS, brand_of in *. cbn [filter snd] in Hx.
  destruct (re_match Card.visa_re s), (re_match Card.mastercard_re s),
    (re_match Card.amex_re s), (re_match Card.discover_re s);
    cbn [List.length] in Hx; try lia;
    repeat split; intros; try discriminate; try reflexivity;
    repeat match goal with
           | Hc : _ /\ _ |- _ => destruct Hc
           end; try discriminate.
Qed.

Lemma brand_is_pattern_match_witness :
  Card.getattr 1 sample_env (sample_card "378282246310005") "brand"
  = Ok (VStr "amex").
Proof.
  refine (proj1 (brand_is_pattern_match 0 sample_env
                   (sample_card "378282246310005") _)).
  unfold sample_env, Card.BRANDS. cbn [BRANDS_items].
  eapply perm_trans; [apply perm_swap|].
  eapply perm_trans; [apply perm_skip, perm_swap|].
  eapply perm_trans; [apply perm_swap|].
  apply perm_skip.
  eapply perm_trans; [apply perm_skip, perm_swap|].
  apply perm_swap.
Defined.

(** ** Constructed cards *)

Lemma sub_class_digits (raw : string) :
  digits_only (sub_class (fun a => negb (is_digit a)) "" raw).
Proof.
  unfold digits_only. induction raw as [|a raw IH]; simpl; [reflexivity|].
  destruct (is_digit a) eqn:Ha; simpl; [rewrite Ha|]; exact IH.
Qed.

(** The number of a constructed card holds digits only, and its
    expiration date is a valid datetime. *)
Lemma Card_init_invariant (raw cvv : string) (month year : Z) (c : Card_obj) :
  Card.init raw month year cvv = Ok c ->
  digits_only (number c) /\ valid_datetime (expired_after (exp_date c)).
Proof.
  intros H. destruct (Card_init_exp_date _ _ _ _ _ H) as (He & Hn & _).
  split.
  - rewrite Hn. apply sub_class_digits.
  - apply (ExpDate_init_valid _ _ _ He).
Qed.

(** Separators in the raw number do not matter. *)
Example dashes_are_dropped :
  Card.init "4111-1111-1111-1111" 2 2024 "123"
  = Card.init "4111111111111111" 2 2024 "123".
Proof. vm_compute. reflexivity. Qed.

(** The properties that read bound names only return a value on every
    constructed card. *)
Lemma bound_properties_return (depth : nat) (E : env) (raw cvv : string)
    (month year : Z) (c : Card_obj) :
  Card.init raw month year cvv = Ok c ->
  Permutation (BRANDS_items E) Card.BRANDS ->
  valid_datetime (utcnow E) ->
  timestamp earliest_reading <= timestamp (utcnow E) ->
  (exists b, Card.getattr (S depth) E c "brand" = Ok (VStr b)) /\
  (exists b, Card.getattr (S depth) E c "is_test" = Ok (VBool b)) /\
  (exists b, Card.getattr (S depth) E c "is_mod10_valid" = Ok (VBool b)) /\
  (exists b, Card.getattr (S (S depth)) E c "is_expired" = Ok (VBool b)).
Proof.
  intros Hc Hperm Hnow Hmin.
  destruct (Card_init_invariant _ _ _ _ _ Hc) as [Hd Hv].
  split; [eexists; apply brand_value; exact Hperm|].
  split.
  { eexists. rewrite Card_is_test. unfold Card.is_test.
    rewrite Card_number, Card_TESTS. reflexivity. }
  split; [eexists; apply is_mod10_valid_luhn; exact Hd|].
  rewrite Card_is_expired_delegates, ExpDate_is_expired.
  unfold ExpDate.is_expired.
  destruct (datetime_sub_eleven_hours _ Hnow Hmin) as (r & -> & _ & _).
  cbn [bind]. rewrite ExpDate_expired_after. eexists. reflexivity.
Qed.

(** The brands of the thirteen test numbers. *)
Example brands_of_TESTS :
  map brand_of Card.TESTS
  = [ "visa"; "amex"; "amex"; "amex"; "unknown"; "unknown"; "discover";
      "discover"; "unknown"; "mastercard"; "visa"; "visa"; "visa" ].
Proof. vm_compute. reflexivity. Qed.

(** One microsecond after the cutoff a date is expired. *)
Example expired_one_microsecond_later :
  ExpDate.getattr 1 (mk_env (mk_datetime 2024 3 1 11 0 0 0) Card.BRANDS)
    sample_exp_date "is_expired" = Ok (VBool true).
Proof. vm_compute. reflexivity. Qed.

(** * Further properties of the two classes *)

(** ** The constructors *)

Lemma sub_class_digits_of (raw : string) :
  sub_class (fun a => negb (is_digit a)) "" raw = digits_of raw.
Proof.
  unfold digits_of. induction raw as [|a raw IH]; simpl; [reflexivity|].
  destruct (is_digit a); simpl; rewrite IH; reflexivity.
Qed.

Lemma sub_class_fixes_digits (s : string) :
  digits_only s -> sub_class (fun a => negb (is_digit a)) "" s = s.
Proof.
  unfold digits_only. induction s as [|a s IH]; simpl; [reflexivity|].
  intros H. apply andb_true_iff in H. destruct H as [Ha Hs].
  rewrite Ha. simpl. rewrite (IH Hs). reflexivity.
Qed.

Lemma sub_class_app (s1 s2 : string) :
  sub_class (fun a => negb (is_digit a)) "" (s1 ++ s2)
  = sub_class (fun a => negb (is_digit a)) "" s1
    ++ sub_class (fun a => negb (is_digit a)) "" s2.
Proof.
  induction s1 as [|a s1 IH]; simpl; [reflexivity|].
  destruct (is_digit a); simpl; rewrite IH; reflexivity.
Qed.

(** X1: the number of a constructed card is the raw number with
    everything but its digits dropped, digits in their order; and
    constructing a card again from that number gives the same card. *)
Theorem Card_init_normalizes (raw cvv : string) (month year : Z) (c : Card_obj) :
  Card.init raw month year cvv = Ok c ->
  number c = digits_of raw /\
  digits_only (number c) /\
  Card.init (number c) month year cvv = Ok c.
Proof.
  intros H. destruct (Card_init_exp_date _ _ _ _ _ H) as (He & Hn & Hc).
  assert (Hd : digits_only (number c)) by (rewrite Hn; apply sub_class_digits).
  split; [rewrite Hn; apply sub_class_digits_of|]. split; [exact Hd|].
  unfold Card.init. rewrite (sub_class_fixes_digits _ Hd), He. simpl.
  destruct c as [n e v]. simpl in Hc. subst v. reflexivity.
Qed.

Lemma Card_init_normalizes_witness :
  number (sample_card "4111111111111111") = digits_of "4111 1111-1111/1111" /\
  digits_only (number (sample_card "4111111111111111")) /\
  Card.init (number (sample_card "4111111111111111")) 2 2024 "123"
  = Ok (sample_card "4111111111111111").
Proof.
  apply (Card_init_normalizes "4111 1111-1111/1111" "123" 2 2024
           (sample_card "4111111111111111")).
  vm_compute. reflexivity.
Defined.

(** X2: a character that is not a digit, put anywhere into the raw
    number, changes nothing: the constructor returns the same card, or
    raises the same error. *)
Theorem Card_init_ignores_separator (s1 s2 cvv : string) (a : ascii)
    (month year : Z) :
  is_digit a = false ->
  Card.init (s1 ++ String a s2) month year cvv
  = Card.init (s1 ++ s2) month year cvv.
Proof.
  intros Ha. unfold Card.init. rewrite !sub_class_app. simpl.
  rewrite Ha. reflexivity.
Qed.

Lemma Card_init_ignores_separator_witness :
  Card.init ("4111" ++ String "-" "111111111111") 2 2024 "123"
  = Card.init ("4111" ++ "111111111111") 2 2024 "123".
Proof.
  apply (Card_init_ignores_separator "4111" "111111111111" "123" "-" 2 2024).
  reflexivity.
Defined.



(** ** Expiration *)

(** The value of [is_expired], for a reading from which eleven hours can
    be taken off. *)
Lemma ExpDate_is_expired_value (depth : nat) (E : env) (e : ExpDate_obj) :
  valid_datetime (utcnow E) -> valid_datetime (expired_after e) ->
  timestamp earliest_reading <= timestamp (utcnow E) ->
  ExpDate.getattr (S depth) E e "is_expired"
  = Ok (VBool (timestamp (expired_after e)
               <? timestamp (utcnow E) - eleven_hours)).
Proof.
  intros Hnow Hexp Hmin.
  rewrite ExpDate_is_expired. unfold ExpDate.is_expired.
  destruct (datetime_sub_eleven_hours _ Hnow Hmin) as (r & -> & Hr & Hts).
  cbn [bind]. rewrite ExpDate_expired_after. cbn [bind py_gt].
  unfold datetime_gt. rewrite (datetime_cmp_timestamp _ _ Hr Hexp), Hts.
  rewrite Z.ltb_compare, (Z.compare_antisym _ (timestamp _ - _)).
  destruct (_ ?= _); reflexivity.
Qed.

Lemma Card_is_expired_value (depth : nat) (E : env) (raw cvv : string)
    (month year : Z) (c : Card_obj) :
  Card.init raw month year cvv = Ok c ->
  valid_datetime (utcnow E) ->
  timestamp earliest_reading <= timestamp (utcnow E) ->
  Card.getattr (S (S depth)) E c "is_expired"
  = Ok (VBool (next_month_start year month + eleven_hours
               <=? timestamp (utcnow E))).
Proof.
  intros Hc Hnow Hmin.
  destruct (Card_init_exp_date _ _ _ _ _ Hc) as (He & _ & _).
  pose proof (ExpDate_init_valid _ _ _ He) as Hv.
  rewrite Card_is_expired_delegates.
  rewrite (ExpDate_is_expired_value depth E _ Hnow Hv Hmin).
  destruct (ExpDate_init_accepts _ _ _ He) as [Hm Hy].
  rewrite (ExpDate_init_ok _ _ Hm Hy) in He. injection He as <-.
  cbn [expired_after].
  pose proof (last_instant_then_next_month year month Hm) as Hnext.
  do 2 f_equal.
  destruct (Z.ltb_spec
              (timestamp (mk_datetime year month (days_in_month year month)
                            23 59 59 999999))
              (timestamp (utcnow E) - eleven_hours)),
    (Z.leb_spec (next_month_start year month + eleven_hours)
       (timestamp (utcnow E))); try reflexivity; lia.
Qed.

(** X4: a card is expired from 11:00:00 UTC on the first day of the month
    after its expiration month, and not before: [is_expired] is true
    exactly when the clock has reached the start of the next month plus
    eleven hours. *)
Theorem is_expired_from_next_month_11am (depth : nat) (E : env)
    (raw cvv : string) (month year : Z) (c : Card_obj) :
  Card.init raw month year cvv = Ok c ->
  valid_datetime (utcnow E) ->
  timestamp earliest_reading <= timestamp (utcnow E) ->
  let expired :=
    next_month_start year month + eleven_hours <=? timestamp (utcnow E) in
  Card.getattr (S (S depth)) E c "is_expired" = Ok (VBool expired) /\
  ExpDate.getattr (S depth) E (exp_date c) "is_expired" = Ok (VBool expired).
Proof.
  intros Hc Hnow Hmin expired.
  pose proof (Card_is_expired_value depth E _ _ _ _ _ Hc Hnow Hmin) as H.
  split; [exact H|].
  rewrite <- Card_is_expired_delegates. exact H.
Qed.

Lemma is_expired_from_next_month_11am_witness :
  Card.getattr 2 (mk_env (mk_datetime 2024 3 1 11 0 0 0) Card.BRANDS)
    (sample_card "4111111111111111") "is_expired"
  = Ok (VBool (next_month_start 2024 2 + eleven_hours
               <=? timestamp (mk_datetime 2024 3 1 11 0 0 0))).
Proof.
  refine (proj1 (is_expired_from_next_month_11am 0
           (mk_env (mk_datetime 2024 3 1 11 0 0 0) Card.BRANDS)
           "4111111111111111" "123" 2 2024 (sample_card "4111111111111111")
           _ _ _)).
  - vm_compute. reflexivity.
  - split; reflexivity.
  - vm_compute. discriminate.
Defined.

Lemma timestamp_in_month (d : datetime) :
  valid_datetime d ->
  timestamp d < next_month_start (dt_year d) (dt_month d).
Proof.
  intros [Hdate Htime].
  unfold check_date_fields in Hdate. unfold check_time_fields in Htime.
  repeat (rewrite andb_true_iff in Hdate || rewrite between_true in Hdate).
  repeat (rewrite andb_true_iff in Htime || rewrite between_true in Htime).
  rewrite <- last_instant_then_next_month by tauto.
  unfold timestamp, toordinal, ymd2ord.
  cbn [dt_year dt_month dt_day dt_hour dt_minute dt_second dt_microsecond].
  lia.
Qed.

Lemma next_month_start_mono (y1 m1 y2 m2 : Z) :
  1 <= m1 <= 12 -> 1 <= m2 <= 12 ->
  y1 < y2 \/ (y1 = y2 /\ m1 <= m2) ->
  next_month_start y1 m1 <= next_month_start y2 m2.
Proof.
  intros H1 H2 Hle.
  rewrite <- !last_instant_then_next_month by assumption.
  unfold timestamp, toordinal, ymd2ord.
  cbn [dt_year dt_month dt_day dt_hour dt_minute dt_second dt_microsecond].
  assert (Hord : days_before_year y1 + days_before_month y1 m1
                 + days_in_month y1 m1
                 <= days_before_year y2 + days_before_month y2 m2
                    + days_in_month y2 m2).
  { destruct Hle as [Hlt | [-> Hm]].
    - pose proof (days_before_year_mono (y1 + 1) y2 ltac:(lia)) as Hy.
      rewrite days_before_year_succ in Hy.
      pose proof (days_before_month_last y1) as Hl.
      assert (Hin : days_before_month y1 m1 + days_in_month y1 m1
                    <= days_before_month y1 12 + days_in_month y1 12).
      { assert (Hc : m1 = 12 \/ m1 <= 11) by lia. destruct Hc as [-> | Hc];
          [lia|].
        rewrite <- (days_before_month_succ y1 m1) by lia.
        pose proof (days_before_month_mono y1 (m1 + 1) 12
                      ltac:(lia) ltac:(lia) ltac:(lia)).
        pose proof (days_in_month_bounds y1 12 ltac:(lia)). lia. }
      pose proof (days_before_month_mono y2 1 m2
                    ltac:(lia) ltac:(lia) ltac:(lia)) as Hb.
      change (days_before_month y2 1) with 0 in Hb.
      pose proof (days_in_month_bounds y2 m2 H2). lia.
    - assert (Hc : m1 = m2 \/ m1 < m2) by lia. destruct Hc as [-> | Hc];
        [lia|].
      pose proof (days_before_month_succ y2 m1 ltac:(lia)).
      pose proof (days_before_month_mono y2 (m1 + 1) m2
                    ltac:(lia) ltac:(lia) ltac:(lia)).
      pose proof (days_in_month_bounds y2 m2 H2). lia. }
  lia.
Qed.

(** X5: during its expiration month, and in every month before it, a card
    is not expired, whatever the day and the time of the UTC clock. *)
Theorem not_expired_through_expiration_month (depth : nat) (E : env)
    (raw cvv : string) (month year : Z) (c : Card_obj) :
  Card.init raw month year cvv = Ok c ->
  valid_datetime (utcnow E) ->
  timestamp earliest_reading <= timestamp (utcnow E) ->
  dt_year (utcnow E) < year \/
  (dt_year (utcnow E) = year /\ dt_month (utcnow E) <= month) ->
  Card.getattr (S (S depth)) E c "is_expired" = Ok (VBool false).
Proof.
  intros Hc Hnow Hmin Hle.
  rewrite (Card_is_expired_value depth E _ _ _ _ _ Hc Hnow Hmin).
  destruct (Card_init_exp_date _ _ _ _ _ Hc) as (He & _ & _).
  destruct (ExpDate_init_accepts _ _ _ He) as [Hm _].
  pose proof (timestamp_in_month _ Hnow) as Hin.
  assert (Hnm : 1 <= dt_month (utcnow E) <= 12).
  { destruct Hnow as [Hdate _]. unfold check_date_fields in Hdate.
    repeat (rewrite andb_true_iff in Hdate || rewrite between_true in Hdate).
    tauto. }
  pose proof (next_month_start_mono _ _ _ _ Hnm Hm Hle) as Hmono.
  unfold eleven_hours.
  destruct (Z.leb_spec (next_month_start year month + 11 * 3600 * 1000000)
              (timestamp (utcnow E))); [lia | reflexivity].
Qed.

Lemma not_expired_through_expiration_month_witness :
  Card.getattr 2 (mk_env (mk_datetime 2024 2 29 23 59 59 999999) Card.BRANDS)
    (sample_card "4111111111111111") "is_expired" = Ok (VBool false).
Proof.
  apply (not_expired_through_expiration_month 0
           (mk_env (mk_datetime 2024 2 29 23 59 59 999999) Card.BRANDS)
           "4111111111111111" "123" 2 2024 (sample_card "4111111111111111")).
  - vm_compute. reflexivity.
  - split; reflexivity.
  - vm_compute. discriminate.
  - right. split; [reflexivity | vm_compute; discriminate].
Defined.

(** X6: expiration never turns back: a card that is expired at one
    reading of the clock is expired at every later reading. *)
Theorem expired_stays_expired (depth : nat) (E1 E2 : env) (raw cvv : string)
    (month year : Z) (c : Card_obj) :
  Card.init raw month year cvv = Ok c ->
  valid_datetime (utcnow E1) -> valid_datetime (utcnow E2) ->
  timestamp earliest_reading <= timestamp (utcnow E1) ->
  timestamp (utcnow E1) <= timestamp (utcnow E2) ->
  Card.getattr (S (S depth)) E1 c "is_expired" = Ok (VBool true) ->
  Card.getattr (S (S depth)) E2 c "is_expired" = Ok (VBool true).
Proof.
  intros Hc H1 H2 Hmin Hle.
  rewrite (Card_is_expired_value depth E1 _ _ _ _ _ Hc H1 Hmin).
  rewrite (Card_is_expired_value depth E2 _ _ _ _ _ Hc H2) by lia.
  intros Hexp. injection Hexp as Hexp. apply Z.leb_le in Hexp.
  do 2 f_equal. apply Z.leb_le. lia.
Qed.

Lemma expired_stays_expired_witness :
  Card.getattr 2 (mk_env (mk_datetime 2031 7 4 0 0 0 0) Card.BRANDS)
    (sample_card "4111111111111111") "is_expired" = Ok (VBool true).
Proof.
  apply (expired_stays_expired 0
           (mk_env (mk_datetime 2024 3 1 11 0 0 0) Card.BRANDS)
           (mk_env (mk_datetime 2031 7 4 0 0 0 0) Card.BRANDS)
           "4111111111111111" "123" 2 2024 (sample_card "4111111111111111")).
  - vm_compute. reflexivity.
  - split; reflexivity.
  - split; reflexivity.
  - vm_compute. discriminate.
  - vm_compute. discriminate.
  - vm_compute. reflexivity.
Defined.

(** X7: of two cards, the one with the earlier expiration month expires
    first: when the later one is expired, so is the earlier one. *)
Theorem earlier_month_expires_first (depth : nat) (E : env)
    (raw1 cvv1 raw2 cvv2 : string) (m1 y1 m2 y2 : Z) (c1 c2 : Card_obj) :
  Card.init raw1 m1 y1 cvv1 = Ok c1 ->
  Card.init raw2 m2 y2 cvv2 = Ok c2 ->
  valid_datetime (utcnow E) ->
  timestamp earliest_reading <= timestamp (utcnow E) ->
  y1 < y2 \/ (y1 = y2 /\ m1 <= m2) ->
  Card.getattr (S (S depth)) E c2 "is_expired" = Ok (VBool true) ->
  Card.getattr (S (S depth)) E c1 "is_expired" = Ok (VBool true).
Proof.
  intros Hc1 Hc2 Hnow Hmin Hle.
  rewrite (Card_is_expired_value depth E _ _ _ _ _ Hc1 Hnow Hmin).
  rewrite (Card_is_expired_value depth E _ _ _ _ _ Hc2 Hnow Hmin).
  destruct (Card_init_exp_date _ _ _ _ _ Hc1) as (He1 & _ & _).
  destruct (Card_init_exp_date _ _ _ _ _ Hc2) as (He2 & _ & _).
  destruct (ExpDate_init_accepts _ _ _ He1) as [Hm1 _].
  destruct (ExpDate_init_accepts _ _ _ He2) as [Hm2 _].
  pose proof (next_month_start_mono _ _ _ _ Hm1 Hm2 Hle).
  intros Hexp. injection Hexp as Hexp. apply Z.leb_le in Hexp.
  do 2 f_equal. apply Z.leb_le. lia.
Qed.

Lemma earlier_month_expires_first_witness :
  Card.getattr 2 (mk_env (mk_datetime 2024 6 1 11 0 0 0) Card.BRANDS)
    (sample_card "4111111111111111") "is_expired" = Ok (VBool true).
Proof.
  apply (earlier_month_expires_first 0
           (mk_env (mk_datetime 2024 6 1 11 0 0 0) Card.BRANDS)
           "4111111111111111" "123" "378282246310005" "9999" 2 2024 5 2024
           (sample_card "4111111111111111")
           (mk_Card "378282246310005"
              (mk_ExpDate (mk_datetime 2024 5 31 23 59 59 999999)) "9999")).
  - vm_compute. reflexivity.
  - vm_compute. reflexivity.
  - split; reflexivity.
  - vm_compute. discriminate.
  - right. split; [reflexivity | vm_compute; discriminate].
  - vm_compute. reflexivity.
Defined.

(** X8: a reading of the clock before 0001-01-01 11:00:00 cannot be taken
    back by eleven hours, and [is_expired] raises [OverflowError] instead
    of answering. *)
Theorem is_expired_overflows_on_early_reading (depth : nat) (E : env)
    (c : Card_obj) :
  valid_datetime (utcnow E) ->
  timestamp (utcnow E) < timestamp earliest_reading ->
  ExpDate.getattr (S depth) E (exp_date c) "is_expired" = Raise OverflowError /\
  Card.getattr (S (S depth)) E c "is_expired" = Raise OverflowError.
Proof.
  intros Hv Hearly.
  assert (He : ExpDate.getattr (S depth) E (exp_date c) "is_expired"
               = Raise OverflowError).
  { rewrite ExpDate_is_expired. unfold ExpDate.is_expired.
    replace (datetime_sub (utcnow E) (timedelta_hours 11))
      with (@Raise datetime OverflowError); [reflexivity|].
    symmetry.
    pose proof (toordinal_bounds _ Hv) as Hord.
    destruct Hv as [_ Ht]. unfold check_time_fields in Ht.
    repeat (rewrite andb_true_iff in Ht || rewrite between_true in Ht).
    change (timestamp earliest_reading) with ((24 + 11) * 3600 * 1000000)
      in Hearly.
    unfold timestamp in Hearly. unfold datetime_sub, datetime_add.
    change (timedelta_neg (timedelta_hours 11)) with (mk_timedelta (-1) 46800 0).
    unfold timedelta_add, timedelta_new.
    cbn [td_days td_seconds td_microseconds].
    set (ord := toordinal (utcnow E)) in *. clearbody ord.
    set (S := dt_hour (utcnow E) * 3600 + dt_minute (utcnow E) * 60
              + dt_second (utcnow E)).
    assert (HS : 0 <= S < 39600 /\ ord = 1) by (subst S; lia).
    clearbody S. destruct HS as [HS ->].
    set (us := dt_microsecond (utcnow E)) in *. clearbody us.
    replace (S + us / 1000000) with S by divmod.
    replace (1 + S / 86400) with 1 by divmod.
    replace (S mod 86400) with S by divmod.
    replace (S + 46800 + (us mod 1000000 + 0) / 1000000) with (S + 46800)
      by divmod.
    replace (1 + -1 + (S + 46800) / 86400) with 0 by divmod.
    reflexivity. }
  split; [exact He|]. rewrite Card_is_expired_delegates. exact He.
Qed.

Lemma is_expired_overflows_on_early_reading_witness :
  ExpDate.getattr 1 (mk_env (mk_datetime 1 1 1 10 59 59 999999) Card.BRANDS)
    (exp_date (sample_card "4111111111111111")) "is_expired"
  = Raise OverflowError /\
  Card.getattr 2 (mk_env (mk_datetime 1 1 1 10 59 59 999999) Card.BRANDS)
    (sample_card "4111111111111111") "is_expired" = Raise OverflowError.
Proof.
  apply (is_expired_overflows_on_early_reading 0
           (mk_env (mk_datetime 1 1 1 10 59 59 999999) Card.BRANDS)
           (sample_card "4111111111111111")).
  - split; reflexivity.
  - vm_compute. reflexivity.
Defined.

(** ** The aggregate check *)

(** X9: [is_valid] never answers true: on every card, at every reading of
    the clock, whatever it returns is [False]. *)
Theorem is_valid_never_true (depth : nat) (E : env) (c : Card_obj) (v : pyval) :
  Card.getattr depth E c "is_valid" = Ok v -> v = VBool false.
Proof.
  destruct depth as [|depth]; [discriminate|].
  rewrite Card_is_valid. unfold Card.is_valid.
  destruct (Card.getattr depth E c "is_expired") as [a|x]; cbn [bind];
    [|discriminate].
  destruct (truthy a); cbn [negb].
  - intros H. injection H as <-. reflexivity.
  - rewrite Card_is_mod10. discriminate.
Qed.

Lemma is_valid_never_true_witness :
  Card.getattr 3 (mk_env (mk_datetime 2024 3 1 11 0 0 0) Card.BRANDS)
    (sample_card "4111111111111111") "is_valid" = Ok (VBool false) /\
  VBool false = VBool false.
Proof.
  assert (H : Card.getattr 3
                (mk_env (mk_datetime 2024 3 1 11 0 0 0) Card.BRANDS)
                (sample_card "4111111111111111") "is_valid" = Ok (VBool false))
    by (vm_compute; reflexivity).
  split; [exact H|].
  apply (is_valid_never_true 3
           (mk_env (mk_datetime 2024 3 1 11 0 0 0) Card.BRANDS)
           (sample_card "4111111111111111") (VBool false) H).
Defined.

(** X10: on a constructed card, [is_valid] answers only once the card is
    expired, and then [False]; before that it raises [AttributeError],
    whether the number passes the checksum or not. *)
Theorem is_valid_on_constructed_card (depth : nat) (E : env)
    (raw cvv : string) (month year : Z) (c : Card_obj) :
  Card.init raw month year cvv = Ok c ->
  valid_datetime (utcnow E) ->
  timestamp earliest_reading <= timestamp (utcnow E) ->
  Card.getattr (S (S (S depth))) E c "is_valid"
  = if next_month_start year month + eleven_hours <=? timestamp (utcnow E)
    then Ok (VBool false)
    else Raise (AttributeError "Card" "is_mod10").
Proof.
  intros Hc Hnow Hmin.
  rewrite is_valid_cases.
  rewrite (Card_is_expired_value depth E _ _ _ _ _ Hc Hnow Hmin).
  destruct (_ <=? _); reflexivity.
Qed.

Lemma is_valid_on_constructed_card_witness :
  Card.getattr 3 sample_env (sample_card "4111111111111111") "is_valid"
  = Raise (AttributeError "Card" "is_mod10").
Proof.
  apply (is_valid_on_constructed_card 0 sample_env "4111111111111111" "123"
           2 2024 (sample_card "4111111111111111")).
  - vm_compute. reflexivity.
  - split; reflexivity.
  - vm_compute. discriminate.
Defined.

(** ** Textual representations *)

(** X11: printing a card fails: [repr] of every card raises
    [AttributeError], because [__repr__] reads [self.mask] first. *)
Theorem Card_repr_raises (depth : nat) (E : env) (c : Card_obj) :
  Card.repr (S (S depth)) E c = Raise (AttributeError "Card" "card_type").
Proof.
  unfold Card.repr, Card.__repr__. rewrite mask_raises. reflexivity.
Qed.

Lemma append_empty (s : string) : s ++ "" = s.
Proof. induction s as [|a s IH]; simpl; [reflexivity | rewrite IH; reflexivity]. Qed.

Lemma month_text (month : Z) :
  1 <= month <= 12 -> zero_pad 2 (str_of_int month) = two_digits month.
Proof. intros H. month_cases month; vm_compute; reflexivity. Qed.

Lemma year_text (year : Z) :
  1000 <= year <= 9999 -> str_of_int year = four_digits year.
Proof.
  intros H.
  assert (Hall : forallb (fun y => String.eqb (str_of_int y) (four_digits y))
                   (map (fun k => 1000 + Z.of_nat k) (seq 0 (Z.to_nat 9000)))
                 = true)
    by (vm_compute; reflexivity).
  rewrite forallb_forall in Hall.
  apply String.eqb_eq, Hall. apply in_map_iff.
  exists (Z.to_nat (year - 1000)). split; [lia | apply in_seq; lia].
Qed.

(** X12: [repr] of an expiration date from 1900 on is the text
    [<ExpDate expired_after=MM/YYYY>], with the month in two digits and
    the year in four; for a year before 1900 it raises [ValueError], which
    is what [strftime] does there. *)
Theorem ExpDate_repr_text (depth : nat) (E : env) (month year : Z)
    (e : ExpDate_obj) :
  ExpDate.init month year = Ok e ->
  ExpDate.repr (S depth) E e
  = if year <? 1900 then Raise ValueError
    else Ok ("<ExpDate expired_after=" ++ two_digits month ++ "/"
             ++ four_digits year ++ ">").
Proof.
  intros H. destruct (ExpDate_init_accepts _ _ _ H) as [Hm Hy].
  rewrite (ExpDate_init_ok _ _ Hm Hy) in H. injection H as <-.
  unfold ExpDate.repr, ExpDate.__repr__. rewrite ExpDate_expired_after.
  cbn [bind py_strftime expired_after]. unfold strftime. cbn [dt_year].
  destruct (Z.ltb_spec year 1900) as [Hold | Hnew]; [reflexivity|].
  cbn [bind py_str].
  change (chars "%m/%Y") with ["%"; "m"; "/"; "%"; "Y"]%char.
  cbn [format_fields dt_month dt_year].
  unfold MAXYEAR in Hy.
  rewrite (month_text month Hm), (year_text year) by lia.
  rewrite append_empty. reflexivity.
Qed.

Lemma ExpDate_repr_text_witness :
  ExpDate.repr 1 sample_env sample_exp_date
  = Ok "<ExpDate expired_after=02/2024>".
Proof.
  apply (ExpDate_repr_text 0 sample_env 2 2024 sample_exp_date).
  vm_compute. reflexivity.
Defined.

(** ** More on the checksum *)

Lemma luhn_sum_split (s : string) (pre post : list ascii) :
  chars s = (pre ++ post)%list ->
  luhn_sum s
  = luhn_terms 0 (rev (map digit_value post))
    + luhn_terms (List.length post) (rev (map digit_value pre)).
Proof.
  intros H. unfold luhn_sum. rewrite H, map_app, rev_app_distr, luhn_terms_app.
  rewrite length_rev, length_map. reflexivity.
Qed.

Lemma luhn_term_zero (position : nat) : luhn_term position 0 = 0.
Proof. unfold luhn_term. destruct (Nat.odd position); reflexivity. Qed.

(** X13: zeros in front of a number do not change its checksum. *)
Theorem leading_zero_keeps_checksum (depth : nat) (E : env) (c c' : Card_obj) :
  digits_only (number c) ->
  number c' = String "0" (number c) ->
  Card.getattr (S depth) E c' "is_mod10_valid"
  = Card.getattr (S depth) E c "is_mod10_valid".
Proof.
  intros Hd Hn.
  rewrite !is_mod10_valid_luhn by (try rewrite Hn; exact Hd).
  rewrite Hn.
  rewrite (luhn_sum_split (String "0" (number c)) ["0"%char] (chars (number c)))
    by reflexivity.
  cbn [map rev app luhn_terms]. change (digit_value "0") with 0.
  rewrite luhn_term_zero, !Z.add_0_r. reflexivity.
Qed.

Lemma leading_zero_keeps_checksum_witness :
  Card.getattr 1 sample_env (sample_card "04111111111111111") "is_mod10_valid"
  = Card.getattr 1 sample_env (sample_card "4111111111111111") "is_mod10_valid".
Proof.
  apply (leading_zero_keeps_checksum 0 sample_env
           (sample_card "4111111111111111") (sample_card "04111111111111111"));
    reflexivity.
Defined.

Lemma chars_app (s t : string) : chars (s ++ t) = (chars s ++ chars t)%list.
Proof. induction s as [|a s IH]; simpl; [reflexivity | rewrite IH; reflexivity]. Qed.

Lemma digit_char_value (d : Z) :
  0 <= d <= 9 -> is_digit (digit_char d) = true /\ digit_value (digit_char d) = d.
Proof. intros H. digit_cases d; split; reflexivity. Qed.

(** X14: every digit-only prefix has exactly one check digit: one digit
    that, appended to the prefix, gives a number that passes the
    checksum. *)
Theorem check_digit_exists_and_is_unique (depth : nat) (E : env)
    (e : ExpDate_obj) (cvv prefix : string) :
  digits_only prefix ->
  exists d : ascii,
    is_digit d = true /\
    Card.getattr (S depth) E (mk_Card (prefix ++ String d "") e cvv)
      "is_mod10_valid" = Ok (VBool true) /\
    forall d' : ascii,
      is_digit d' = true -> d' <> d ->
      Card.getattr (S depth) E (mk_Card (prefix ++ String d' "") e cvv)
        "is_mod10_valid" = Ok (VBool false).
Proof.
  intros Hp.
  set (rest := luhn_terms 1 (rev (map digit_value (chars prefix)))).
  assert (Hsum : forall a, luhn_sum (prefix ++ String a "")
                           = digit_value a + rest).
  { intros a.
    rewrite (luhn_sum_split _ (chars prefix) [a]) by apply chars_app.
    cbn [map rev app luhn_terms List.length].
    change (luhn_term 0 (digit_value a)) with (digit_value a).
    subst rest. lia. }
  assert (Hdig : forall a, is_digit a = true ->
                           digits_only (prefix ++ String a "")).
  { intros a Ha. unfold digits_only. rewrite chars_app, forallb_app.
    unfold digits_only in Hp. rewrite Hp. simpl. rewrite Ha. reflexivity. }
  set (v := (- rest) mod 10).
  assert (Hv : 0 <= v <= 9) by (subst v; divmod).
  destruct (digit_char_value v Hv) as [Hd Hval].
  exists (digit_char v). split; [exact Hd|].
  assert (Hok : luhn_sum (prefix ++ String (digit_char v) "") mod 10 = 0)
    by (rewrite Hsum, Hval; subst v; divmod).
  split.
  - rewrite is_mod10_valid_luhn by (apply Hdig; exact Hd).
    cbn [number]. rewrite Hok. reflexivity.
  - intros d' Hd' Hne.
    rewrite is_mod10_valid_luhn by (apply Hdig; exact Hd').
    cbn [number].
    pose proof (luhn_detects_one_digit
                  (prefix ++ String (digit_char v) "") (prefix ++ String d' "")
                  (chars prefix) [] (digit_char v) d'
                  (chars_app _ _) (chars_app _ _) Hd Hd'
                  (fun H => Hne (eq_sym H)) Hok) as Hbad.
    destruct (Z.eqb_spec (luhn_sum (prefix ++ String d' "") mod 10) 0);
      [contradiction | reflexivity].
Qed.

Lemma check_digit_exists_and_is_unique_witness :
  exists d : ascii,
    is_digit d = true /\
    Card.getattr 1 sample_env
      (mk_Card ("411111111111111" ++ String d "") sample_exp_date "123")
      "is_mod10_valid" = Ok (VBool true) /\
    forall d' : ascii,
      is_digit d' = true -> d' <> d ->
      Card.getattr 1 sample_env
        (mk_Card ("411111111111111" ++ String d' "") sample_exp_date "123")
        "is_mod10_valid" = Ok (VBool false).
Proof.
  apply (check_digit_exists_and_is_unique 0 sample_env sample_exp_date "123"
           "411111111111111").
  reflexivity.
Defined.

(** Two neighbouring digits and their two terms of the Luhn sum. *)
Lemma luhn_pair_separates (position : nat) (a b : Z) :
  0 <= a <= 9 -> 0 <= b <= 9 -> a <> b ->
  ~ (a = 0 /\ b = 9) -> ~ (a = 9 /\ b = 0) ->
  (luhn_term position b + luhn_term (S position) a
   - (luhn_term position a + luhn_term (S position) b)) mod 10 <> 0.
Proof.
  intros Ha Hb Hne H09 H90. unfold luhn_term, digit_sum.
  rewrite Nat.odd_succ, <- Nat.negb_odd.
  destruct (Nat.odd position); cbn [negb];
    digit_cases a; digit_cases b; try congruence; try tauto;
    vm_compute; discriminate.
Qed.

Lemma luhn_pair_zero_nine (position : nat) :
  luhn_term position 0 + luhn_term (S position) 9
  = luhn_term position 9 + luhn_term (S position) 0.
Proof.
  unfold luhn_term. rewrite Nat.odd_succ, <- Nat.negb_odd.
  destruct (Nat.odd position); reflexivity.
Qed.

Lemma luhn_sum_pair (s : string) (pre post : list ascii) (a b : ascii) :
  chars s = (pre ++ a :: b :: post)%list ->
  luhn_sum s
  = luhn_terms 0 (rev (map digit_value post))
    + (luhn_term (List.length post) (digit_value b)
       + luhn_term (S (List.length post)) (digit_value a))
    + luhn_terms (S (S (List.length post))) (rev (map digit_value pre)).
Proof.
  intros H.
  rewrite (luhn_sum_split s pre (a :: b :: post) H).
  cbn [map rev List.length]. rewrite <- !app_assoc. cbn [app].
  rewrite luhn_terms_app, length_rev, length_map. cbn [luhn_terms Nat.add].
  lia.
Qed.

(** X15: swapping two neighbouring digits of a number that passes the
    checksum gives a number that fails it, unless the two digits are
    equal or are 0 and 9. *)
Theorem transposition_is_detected (depth : nat) (E : env) (c c' : Card_obj)
    (pre post : list ascii) (a b : ascii) :
  digits_only (number c) ->
  chars (number c) = (pre ++ a :: b :: post)%list ->
  chars (number c') = (pre ++ b :: a :: post)%list ->
  a <> b ->
  ~ (a = "0"%char /\ b = "9"%char) -> ~ (a = "9"%char /\ b = "0"%char) ->
  Card.getattr (S depth) E c "is_mod10_valid" = Ok (VBool true) ->
  Card.getattr (S depth) E c' "is_mod10_valid" = Ok (VBool false).
Proof.
  intros Hd Hc Hc' Hne H09 H90.
  assert (Hd' : digits_only (number c')).
  { unfold digits_only in *. rewrite Hc in Hd. rewrite Hc'.
    rewrite forallb_app in *. simpl in *.
    destruct (forallb is_digit pre), (is_digit a), (is_digit b),
      (forallb is_digit post); simpl in *; congruence. }
  assert (Hab : is_digit a = true /\ is_digit b = true).
  { unfold digits_only in Hd. rewrite Hc, forallb_app in Hd. simpl in Hd.
    destruct (forallb is_digit pre), (is_digit a), (is_digit b);
      simpl in *; auto; discriminate. }
  destruct Hab as [Ha Hb].
  rewrite !is_mod10_valid_luhn by assumption.
  rewrite (luhn_sum_pair _ _ _ _ _ Hc), (luhn_sum_pair _ _ _ _ _ Hc').
  intros H. injection H as H. apply Z.eqb_eq in H.
  pose proof (luhn_pair_separates (List.length post)
                (digit_value a) (digit_value b)
                (proj1 (is_digit_value a) Ha) (proj1 (is_digit_value b) Hb)
                (fun Heq => Hne (digit_value_inj a b Heq))) as Hsep.
  assert (Hz : digit_value "0" = 0 /\ digit_value "9" = 9)
    by (split; reflexivity).
  assert (H09' : ~ (digit_value a = 0 /\ digit_value b = 9)).
  { intros [Hx Hy]. apply H09. split; apply digit_value_inj;
      [rewrite Hx | rewrite Hy]; symmetry; apply Hz. }
  assert (H90' : ~ (digit_value a = 9 /\ digit_value b = 0)).
  { intros [Hx Hy]. apply H90. split; apply digit_value_inj;
      [rewrite Hx | rewrite Hy]; symmetry; apply Hz. }
  specialize (Hsep H09' H90').
  do 2 f_equal. apply Z.eqb_neq. intros Hbad. apply Hsep.
  revert H Hbad.
  generalize (luhn_terms 0 (rev (map digit_value post))).
  generalize (luhn_terms (S (S (List.length post)))
                (rev (map digit_value pre))).
  generalize (luhn_term (List.length post) (digit_value a)).
  generalize (luhn_term (List.length post) (digit_value b)).
  generalize (luhn_term (S (List.length post)) (digit_value a)).
  generalize (luhn_term (S (List.length post)) (digit_value b)).
  intros. divmod.
Qed.

Lemma transposition_is_detected_witness :
  Card.getattr 1 sample_env (sample_card "1411111111111111") "is_mod10_valid"
  = Ok (VBool false).
Proof.
  apply (transposition_is_detected 0 sample_env
           (sample_card "4111111111111111") (sample_card "1411111111111111")
           [] (chars "11111111111111") "4"%char "1"%char);
    try reflexivity; try discriminate.
  - intros [H _]. discriminate.
  - intros [H _]. discriminate.
Defined.

(** X16: the checksum does not see a swap of a neighbouring 0 and 9: the
    number with 09 and the number with 90 at the same place pass
    together or fail together. *)
Theorem zero_nine_swap_is_not_detected (depth : nat) (E : env)
    (c c' : Card_obj) (pre post : list ascii) :
  digits_only (number c) ->
  chars (number c) = (pre ++ "0"%char :: "9"%char :: post)%list ->
  chars (number c') = (pre ++ "9"%char :: "0"%char :: post)%list ->
  Card.getattr (S depth) E c' "is_mod10_valid"
  = Card.getattr (S depth) E c "is_mod10_valid".
Proof.
  intros Hd Hc Hc'.
  assert (Hd' : digits_only (number c')).
  { unfold digits_only in *. rewrite Hc in Hd. rewrite Hc'.
    rewrite forallb_app in *. simpl in *. exact Hd. }
  rewrite !is_mod10_valid_luhn by assumption.
  rewrite (luhn_sum_pair _ _ _ _ _ Hc), (luhn_sum_pair _ _ _ _ _ Hc').
  change (digit_value "0") with 0. change (digit_value "9") with 9.
  rewrite luhn_pair_zero_nine. reflexivity.
Qed.

Lemma zero_nine_swap_is_not_detected_witness :
  Card.getattr 1 sample_env (sample_card "4111111111119011") "is_mod10_valid"
  = Card.getattr 1 sample_env (sample_card "4111111111110911") "is_mod10_valid".
Proof.
  apply (zero_nine_swap_is_not_detected 0 sample_env
           (sample_card "4111111111110911") (sample_card "4111111111119011")
           (chars "411111111111") (chars "11"));
    reflexivity.
Defined.

(** ** Brands in plain terms *)

Lemma brand_of_pattern (s : string) :
  (brand_of s = "visa" <-> re_match Card.visa_re s = true) /\
  (brand_of s = "mastercard" <-> re_match Card.mastercard_re s = true) /\
  (brand_of s = "amex" <-> re_match Card.amex_re s = true) /\
  (brand_of s = "discover" <-> re_match Card.discover_re s = true).
Proof.
  pose proof (patterns_exclusive s) as Hx.
  unfold matching, Card.BRANDS, brand_of in *. cbn [filter snd] in Hx.
  destruct (re_match Card.visa_re s), (re_match Card.mastercard_re s),
    (re_match Card.amex_re s), (re_match Card.discover_re s);
    cbn [List.length] in Hx; try lia;
    repeat split; intros; try discriminate; reflexivity.
Qed.

Lemma brand_is (depth : nat) (E : env) (c : Card_obj) (b : string) :
  Permutation (BRANDS_items E) Card.BRANDS ->
  Card.getattr (S depth) E c "brand" = Ok (VStr b) <-> brand_of (number c) = b.
Proof.
  intros H. rewrite (brand_value depth E c H). split.
  - intros Heq. injection Heq as Heq. exact Heq.
  - intros ->. reflexivity.
Qed.

(** A run of [n] digits on a digit-only input takes the next [n]
    characters when there are that many. *)
Lemma rep_digits (n : nat) :
  forall (pos : nat) (l : list ascii) (k : nat -> list ascii -> bool),
    forallb is_digit l = true ->
    re_run (Rep n Digit) pos l k
    = if (n <=? List.length l)%nat then k (pos + n)%nat (skipn n l) else false.
Proof.
  induction n as [|n IH]; intros pos l k Hl.
  - cbn. rewrite Nat.add_0_r. reflexivity.
  - change (re_run (Rep (S n) Digit) pos l k)
      with (step_char is_digit pos l (fun p t => re_run (Rep n Digit) p t k)).
    destruct l as [|a t]; [reflexivity|].
    cbn [forallb] in Hl. apply andb_true_iff in Hl. destruct Hl as [Ha Ht].
    cbn [step_char]. rewrite Ha, (IH _ _ _ Ht).
    cbn [List.length skipn Nat.leb]. rewrite Nat.add_succ_r. reflexivity.
Qed.

Lemma eol_digits (pos : nat) (l : list ascii) :
  forallb is_digit l = true ->
  re_run Eol pos l (fun _ _ => true) = (List.length l =? 0)%nat.
Proof.
  intros Hl. destruct l as [|a [|b t]]; cbn -[Ascii.eqb newline];
    try reflexivity.
  cbn in Hl. rewrite andb_true_r in Hl.
  destruct (Ascii.eqb_spec a newline) as [-> | _];
    [discriminate Hl | reflexivity].
Qed.

Lemma forallb_skipn {A : Type} (p : A -> bool) (n : nat) (l : list A) :
  forallb p l = true -> forallb p (skipn n l) = true.
Proof.
  revert l. induction n as [|n IH]; intros [|a l] H; simpl; auto.
  simpl in H. apply andb_true_iff in H. apply IH. tauto.
Qed.

(** The end of three patterns: [n] digits, then the end of the string. *)
Lemma digits_to_end (n pos : nat) (l : list ascii) :
  forallb is_digit l = true ->
  re_run (Cat (Rep n Digit) Eol) pos l (fun _ _ => true)
  = (List.length l =? n)%nat.
Proof.
  intros Hl.
  change (re_run (Cat (Rep n Digit) Eol) pos l (fun _ _ => true))
    with (re_run (Rep n Digit) pos l
            (fun p t => re_run Eol p t (fun _ _ => true))).
  rewrite (rep_digits n _ _ _ Hl).
  destruct (Nat.leb_spec n (List.length l)) as [Hle | Hgt].
  - rewrite eol_digits by (apply forallb_skipn; exact Hl).
    rewrite length_skipn.
    destruct (Nat.eqb_spec (List.length l - n) 0),
      (Nat.eqb_spec (List.length l) n); try reflexivity; lia.
  - destruct (Nat.eqb_spec (List.length l) n); [lia | reflexivity].
Qed.

(** The end of the Visa pattern: twelve digits, perhaps three more. *)
Lemma visa_to_end (pos : nat) (l : list ascii) :
  forallb is_digit l = true ->
  re_run (Cat (Rep 12 Digit) (Cat (Opt (Rep 3 Digit)) Eol)) pos l
    (fun _ _ => true)
  = ((List.length l =? 12) || (List.length l =? 15))%nat.
Proof.
  intros Hl.
  change (re_run (Cat (Rep 12 Digit) (Cat (Opt (Rep 3 Digit)) Eol)) pos l
            (fun _ _ => true))
    with (re_run (Rep 12 Digit) pos l
            (fun p t =>
               (re_run (Cat (Rep 3 Digit) Eol) p t (fun _ _ => true)
                || re_run Eol p t (fun _ _ => true))%bool)).
  rewrite (rep_digits 12 _ _ _ Hl).
  destruct (Nat.leb_spec 12 (List.length l)) as [Hle | Hgt].
  - pose proof (forallb_skipn is_digit 12 l Hl) as Hs.
    rewrite (digits_to_end 3 _ _ Hs), (eol_digits _ _ Hs), length_skipn.
    destruct (Nat.eqb_spec (List.length l - 12) 3),
      (Nat.eqb_spec (List.length l - 12) 0),
      (Nat.eqb_spec (List.length l) 12), (Nat.eqb_spec (List.length l) 15);
      try reflexivity; lia.
  - destruct (Nat.eqb_spec (List.length l) 12),
      (Nat.eqb_spec (List.length l) 15); try reflexivity; lia.
Qed.

Lemma digits_only_cons (a : ascii) (s : string) :
  digits_only (String a s) <-> is_digit a = true /\ digits_only s.
Proof. unfold digits_only. cbn. apply andb_true_iff. Qed.

(** Case analysis on the leading characters that a pattern and
    [starts_with] compare with literals. *)
Ltac leading_chars :=
  repeat (first
    [ match goal with
      | |- context [Ascii.eqb ?x ?y] =>
          is_var y; destruct (Ascii.eqb_spec x y); [subst y|]; try congruence
      end
    | match goal with
      | |- context [Ascii.eqb ?x ?y] =>
          is_var x; destruct (Ascii.eqb_spec x y); [subst x|]; try congruence
      end
    | match goal with
      | |- context [Ascii.eqb ?x ?y] =>
          let v := eval vm_compute in (Ascii.eqb x y) in
          match v with
          | true => change (Ascii.eqb x y) with true
          | false => change (Ascii.eqb x y) with false
          end
      end
    | progress cbn -[Ascii.eqb is_digit nat_of_ascii Nat.leb] ]).

Lemma visa_shape (s : string) :
  digits_only s ->
  re_match Card.visa_re s = true
  <-> starts_with "4" s = true /\
      (String.length s = 13 \/ String.length s = 16)%nat.
Proof.
  intros Hd. unfold re_match, Card.visa_re. cbn [cat_all].
  destruct s as [|a t].
  - cbn. split; [discriminate | intros [H _]; discriminate].
  - apply digits_only_cons in Hd. destruct Hd as [Ha Ht].
    remember (Cat (Rep 12 Digit) (Cat (Opt (Rep 3 Digit)) Eol)) as tail.
    cbn -[Ascii.eqb]. subst tail. fold (chars t).
    rewrite visa_to_end, length_chars by exact Ht.
    destruct (Ascii.eqb_spec "4" a) as [<- | Hne]; cbn [andb].
    + rewrite orb_true_iff, !Nat.eqb_eq.
      split; [intros H; split|]; try reflexivity; lia.
    + split; [discriminate | intros [H _]; discriminate].
Qed.

Lemma amex_shape (s : string) :
  digits_only s ->
  re_match Card.amex_re s = true
  <-> (starts_with "34" s = true \/ starts_with "37" s = true) /\
      String.length s = 15%nat.
Proof.
  intros Hd. unfold re_match, Card.amex_re. cbn [cat_all].
  remember (Cat (Rep 13 Digit) Eol) as tail.
  destruct s as [|a [|b t]];
    [cbn; split; [discriminate | intros [[H | H] _]; discriminate] | |].
  - cbn -[Ascii.eqb]. leading_chars;
      (split; [discriminate | intros [[H | H] H']; discriminate]).
  - apply digits_only_cons in Hd. destruct Hd as [Ha Hd].
    apply digits_only_cons in Hd. destruct Hd as [Hb Ht].
    cbn -[Ascii.eqb].
    leading_chars; subst tail; fold (chars t);
      rewrite ?digits_to_end, ?length_chars by exact Ht;
      rewrite ?Nat.eqb_eq;
      try (split; [discriminate | intros [[H | H] H']; discriminate]);
      (split; [intros H; split; [auto | lia] | intros [_ H]; lia]).
Qed.

Ltac shape_finish :=
  repeat match goal with
         | |- context [if ?b then false else false] => destruct b
         end;
  rewrite ?Nat.eqb_eq;
  (split;
   [ intros H;
     first [ discriminate H
           | split; [first [left; reflexivity | right; reflexivity] | lia] ]
   | intros [[H | H] H']; first [discriminate H | exfalso; lia | lia] ]).

Lemma discover_shape (s : string) :
  digits_only s ->
  re_match Card.discover_re s = true
  <-> (starts_with "6011" s = true \/ starts_with "65" s = true) /\
      String.length s = 16%nat.
Proof.
  intros Hd. unfold re_match, Card.discover_re, lits.
  cbn [cat_all map chars list_ascii_of_string].
  remember (Cat (Rep 12 Digit) Eol) as tail.
  destruct s as [|a [|b [|c [|d t]]]].
  5: { repeat (apply digits_only_cons in Hd;
               let H := fresh "Hdig" in destruct Hd as [H Hd]).
       cbn -[Ascii.eqb is_digit]. rewrite ?Hdig1, ?Hdig2.
       leading_chars; subst tail; fold (chars t);
         rewrite ?digits_to_end, ?length_chars by exact Hd;
         rewrite ?orb_false_r; shape_finish. }
  all: cbn -[Ascii.eqb is_digit]; leading_chars; shape_finish.
Qed.

Lemma between_digits (lo hi b : ascii) :
  is_digit lo = true -> is_digit hi = true ->
  (Nat.leb (nat_of_ascii lo) (nat_of_ascii b)
   && Nat.leb (nat_of_ascii b) (nat_of_ascii hi))%bool = true
  <-> digit_value lo <= digit_value b <= digit_value hi.
Proof.
  intros _ _. unfold digit_value.
  rewrite andb_true_iff, !Nat.leb_le. lia.
Qed.

Ltac range_tests :=
  repeat match goal with
         | |- context [(Nat.leb (nat_of_ascii ?lo) (nat_of_ascii ?b)
                        && Nat.leb (nat_of_ascii ?b) (nat_of_ascii ?hi))%bool] =>
             let R := fresh "R" in
             destruct (Nat.leb (nat_of_ascii lo) (nat_of_ascii b)
                       && Nat.leb (nat_of_ascii b) (nat_of_ascii hi))%bool eqn:R;
             [ apply (between_digits lo hi b eq_refl eq_refl) in R
             | apply not_true_iff_false in R;
               rewrite (between_digits lo hi b eq_refl eq_refl) in R ]
         end;
  repeat match goal with
         | |- context [digit_value ?c] =>
             tryif is_var c then fail else
               let v := eval vm_compute in (digit_value c) in
               change (digit_value c) with v in *
         end.

Lemma mastercard_shape (s : string) :
  digits_only s ->
  re_match Card.mastercard_re s = true
  <-> ((starts_with "5" s = true /\ 1 <= digit_at 1 s <= 5) \/
       starts_with "677189" s = true) /\
      String.length s = 16%nat.
Proof.
  intros Hd. unfold re_match, Card.mastercard_re, lits.
  cbn [cat_all map chars list_ascii_of_string].
  remember (Cat (Rep 10 Digit) Eol) as tail.
  destruct s as [|a [|b [|c [|d [|e [|f t]]]]]].
  7: { repeat (apply digits_only_cons in Hd;
               let H := fresh "Hdig" in destruct Hd as [H Hd]).
       cbn -[Ascii.eqb is_digit nat_of_ascii Nat.leb].
       rewrite ?Hdig1, ?Hdig2, ?Hdig3, ?Hdig4.
       leading_chars; subst tail; fold (chars t);
         rewrite ?digits_to_end, ?length_chars by exact Hd;
         rewrite ?orb_false_r; range_tests; rewrite ?Nat.eqb_eq;
         intuition (try congruence; try lia). }
  all: cbn -[Ascii.eqb is_digit nat_of_ascii Nat.leb]; leading_chars;
    range_tests;
    repeat match goal with
           | |- context [if ?b then false else false] => destruct b
           end;
    intuition (try congruence; try lia).
Qed.

(** X17: a digit-only number is a Visa number exactly when it starts with
    4 and has 13 or 16 digits. *)
Theorem visa_numbers (depth : nat) (E : env) (c : Card_obj) :
  Permutation (BRANDS_items E) Card.BRANDS ->
  digits_only (number c) ->
  Card.getattr (S depth) E c "brand" = Ok (VStr "visa")
  <-> starts_with "4" (number c) = true /\
      (String.length (number c) = 13 \/ String.length (number c) = 16)%nat.
Proof.
  intros H Hd. rewrite (brand_is depth E c "visa" H).
  destruct (brand_of_pattern (number c)) as (Hv & _).
  rewrite Hv. apply visa_shape. exact Hd.
Qed.

Lemma visa_numbers_witness :
  Card.getattr 1 (mk_env (utcnow sample_env) Card.BRANDS)
    (sample_card "4222222222222") "brand" = Ok (VStr "visa").
Proof.
  apply (visa_numbers 0 (mk_env (utcnow sample_env) Card.BRANDS)
           (sample_card "4222222222222")).
  - apply Permutation_refl.
  - reflexivity.
  - split; [reflexivity | left; reflexivity].
Defined.

(** X18: a digit-only number is a Mastercard number exactly when it has 16
    digits and starts with 51, 52, 53, 54 or 55, or with 677189. *)
Theorem mastercard_numbers (depth : nat) (E : env) (c : Card_obj) :
  Permutation (BRANDS_items E) Card.BRANDS ->
  digits_only (number c) ->
  Card.getattr (S depth) E c "brand" = Ok (VStr "mastercard")
  <-> ((starts_with "5" (number c) = true /\ 1 <= digit_at 1 (number c) <= 5) \/
       starts_with "677189" (number c) = true) /\
      String.length (number c) = 16%nat.
Proof.
  intros H Hd. rewrite (brand_is depth E c "mastercard" H).
  destruct (brand_of_pattern (number c)) as (_ & Hm & _).
  rewrite Hm. apply mastercard_shape. exact Hd.
Qed.

Lemma mastercard_numbers_witness :
  Card.getattr 1 (mk_env (utcnow sample_env) Card.BRANDS)
    (sample_card "6771890000000000") "brand" = Ok (VStr "mastercard").
Proof.
  apply (mastercard_numbers 0 (mk_env (utcnow sample_env) Card.BRANDS)
           (sample_card "6771890000000000")).
  - apply Permutation_refl.
  - reflexivity.
  - split; [right; reflexivity | reflexivity].
Defined.

(** X19: a digit-only number is an Amex number exactly when it has 15
    digits and starts with 34 or 37. *)
Theorem amex_numbers (depth : nat) (E : env) (c : Card_obj) :
  Permutation (BRANDS_items E) Card.BRANDS ->
  digits_only (number c) ->
  Card.getattr (S depth) E c "brand" = Ok (VStr "amex")
  <-> (starts_with "34" (number c) = true \/
       starts_with "37" (number c) = true) /\
      String.length (number c) = 15%nat.
Proof.
  intros H Hd. rewrite (brand_is depth E c "amex" H).
  destruct (brand_of_pattern (number c)) as (_ & _ & Ha & _).
  rewrite Ha. apply amex_shape. exact Hd.
Qed.

Lemma amex_numbers_witness :
  Card.getattr 1 (mk_env (utcnow sample_env) Card.BRANDS)
    (sample_card "340000000000000") "brand" = Ok (VStr "amex").
Proof.
  apply (amex_numbers 0 (mk_env (utcnow sample_env) Card.BRANDS)
           (sample_card "340000000000000")).
  - apply Permutation_refl.
  - reflexivity.
  - split; [left; reflexivity | reflexivity].
Defined.

(** X20: a digit-only number is a Discover number exactly when it has 16
    digits and starts with 6011 or 65. *)
Theorem discover_numbers (depth : nat) (E : env) (c : Card_obj) :
  Permutation (BRANDS_items E) Card.BRANDS ->
  digits_only (number c) ->
  Card.getattr (S depth) E c "brand" = Ok (VStr "discover")
  <-> (starts_with "6011" (number c) = true \/
       starts_with "65" (number c) = true) /\
      String.length (number c) = 16%nat.
Proof.
  intros H Hd. rewrite (brand_is depth E c "discover" H).
  destruct (brand_of_pattern (number c)) as (_ & _ & _ & Hx).
  rewrite Hx. apply discover_shape. exact Hd.
Qed.

Lemma discover_numbers_witness :
  Card.getattr 1 (mk_env (utcnow sample_env) Card.BRANDS)
    (sample_card "6500000000000000") "brand" = Ok (VStr "discover").
Proof.
  apply (discover_numbers 0 (mk_env (utcnow sample_env) Card.BRANDS)
           (sample_card "6500000000000000")).
  - apply Permutation_refl.
  - reflexivity.
  - split; [right; reflexivity | reflexivity].
Defined.

(** ** What does work *)

(** X21: on a constructed card, with the clock at or after 0001-01-01
    11:00, the four properties that read bound names only never raise:
    [brand] returns a string, and [is_test], [is_mod10_valid] and
    [is_expired] return a truth value. *)
Theorem constructed_card_properties_return (depth : nat) (E : env)
    (raw cvv : string) (month year : Z) (c : Card_obj) :
  Card.init raw month year cvv = Ok c ->
  Permutation (BRANDS_items E) Card.BRANDS ->
  valid_datetime (utcnow E) ->
  timestamp earliest_reading <= timestamp (utcnow E) ->
  (exists b, Card.getattr (S depth) E c "brand" = Ok (VStr b)) /\
  (exists b, Card.getattr (S depth) E c "is_test" = Ok (VBool b)) /\
  (exists b, Card.getattr (S depth) E c "is_mod10_valid" = Ok (VBool b)) /\
  (exists b, Card.getattr (S (S depth)) E c "is_expired" = Ok (VBool b)).
Proof.
  intros Hc Hperm Hnow Hmin.
  destruct (Card_init_invariant _ _ _ _ _ Hc) as [Hd Hv].
  split; [exists (brand_of (number c)); apply brand_value; exact Hperm|].
  split.
  { eexists. rewrite Card_is_test. unfold Card.is_test.
    rewrite Card_number, Card_TESTS. reflexivity. }
  split; [eexists; apply is_mod10_valid_luhn; exact Hd|].
  eexists. rewrite Card_is_expired_delegates.
  apply (ExpDate_is_expired_value depth E _ Hnow Hv Hmin).
Qed.

Lemma constructed_card_properties_return_witness :
  (exists b, Card.getattr 1 sample_env (sample_card "4111111111111111") "brand"
             = Ok (VStr b)) /\
  (exists b, Card.getattr 1 sample_env (sample_card "4111111111111111") "is_test"
             = Ok (VBool b)) /\
  (exists b, Card.getattr 1 sample_env (sample_card "4111111111111111")
               "is_mod10_valid" = Ok (VBool b)) /\
  (exists b, Card.getattr 2 sample_env (sample_card "4111111111111111")
               "is_expired" = Ok (VBool b)).
Proof.
  apply (constructed_card_properties_return 0 sample_env "4111111111111111"
           "123" 2 2024 (sample_card "4111111111111111")).
  - vm_compute. reflexivity.
  - unfold sample_env, Card.BRANDS. cbn [BRANDS_items].
    eapply perm_trans; [apply perm_swap|].
    eapply perm_trans; [apply perm_skip, perm_swap|].
    eapply perm_trans; [apply perm_swap|].
    apply perm_skip.
    eapply perm_trans; [apply perm_skip, perm_swap|].
    apply perm_swap.
  - split; reflexivity.
  - vm_compute. discriminate.
Defined.
